(** * GIIA platform client (docs/api/examples/python_client.py)

    A shallow embedding of the example Python client and of its driver,
    together with the properties its specification states about them.

    The client is a thin wrapper: every method builds one HTTP request, sends
    it through a [requests.Session], raises on an error status, decodes the
    JSON body and maps it into a record.  The embedding keeps that shape:

    - Python values decoded from JSON are the untyped [value]s the code
      handles (dataclasses do not check their annotations);
    - a method is a computation in a state-and-exception monad [M]: an
      exception leaves the mutations made before it in place, as in Python;
    - the outside world (server, clock, process environment) is an explicit
      [env] read by the computations, and every request sent is logged. *)

From Stdlib Require Import ZArith String List Ascii Lia Bool.
From stdpp Require Import base option strings pretty gmap.
Import ListNotations.

Set Warnings "-register-all".
Local Open Scope string_scope.
Local Open Scope list_scope.
Local Open Scope Z_scope.

(** ** Python values *)

(** What [response.json()] can return.  A float is kept as the pair of its
    significand and binary exponent; the client never computes on one. *)
Inductive value : Type :=
| VNone
| VBool (b : bool)
| VInt (z : Z)
| VFloat (m e : Z)
| VStr (s : string)
| VList (l : list value)
| VDict (d : gmap string value).

(** The exceptions that can leave a client method. *)
Inductive exn : Type :=
| HTTPError (status : Z)
| ConnectionError
| JSONDecodeError
| KeyError (k : string)
| TypeError
| AttributeError
| ValueError
| OverflowError.

(** [isinstance(e, requests.exceptions.RequestException)]: the error raised
    by [raise_for_status], every error raised while sending, and (since
    requests 2.27) the error raised by [response.json()]. *)
Definition is_request_exception (e : exn) : bool :=
  match e with
  | HTTPError _ | ConnectionError | JSONDecodeError => true
  | _ => false
  end.

Inductive result (A : Type) : Type :=
| Ok (a : A)
| Raise (e : exn).
Arguments Ok {A} a.
Arguments Raise {A} e.

(** Truth value of an object, as tested by [if x:]. *)
Definition truthy (v : value) : bool :=
  match v with
  | VNone => false
  | VBool b => b
  | VInt z => negb (z =? 0)
  | VFloat m _ => negb (m =? 0)
  | VStr s => negb (String.eqb s "")
  | VList l => match l with [] => false | _ => true end
  | VDict d => negb (bool_decide (d = ∅))
  end.

(** [v[k]] for a string key: only a dict can be indexed that way. *)
Definition getitem (v : value) (k : string) : result value :=
  match v with
  | VDict d => match d !! k with Some x => Ok x | None => Raise (KeyError k) end
  | _ => Raise TypeError
  end.

(** [v.get(k, dflt)]: only a dict has the method. *)
Definition get (v : value) (k : string) (dflt : value) : result value :=
  match v with
  | VDict d => Ok (default dflt (d !! k))
  | _ => Raise AttributeError
  end.

(** ** Records *)

Record User : Type := mkUser {
  u_id : value;
  u_email : value;
  u_first_name : value;
  u_last_name : value;
  u_organization_id : value;
  u_roles : value
}.

Record Product : Type := mkProduct {
  p_id : value;
  p_sku : value;
  p_name : value;
  p_category : value;
  p_unit_of_measure : value;
  p_status : value
}.

Record Buffer : Type := mkBuffer {
  b_product_id : value;
  b_zone : value;
  b_net_flow_position : value;
  b_buffer_penetration : value;
  b_red_zone : value;
  b_yellow_zone : value;
  b_green_zone : value
}.

(** ** HTTP *)

Inductive method : Type := GET | POST.

(** One call of [session.get] / [session.post] with its keyword arguments;
    [None] is a keyword that was not passed. *)
Record request : Type := mkRequest {
  req_method : method;
  req_url : string;
  req_headers : option (gmap string value);
  req_params : option (gmap string value);
  req_json : option value
}.

(** [body] is the decoded JSON body, [None] when the body is not JSON. *)
Record response : Type := mkResponse {
  status_code : Z;
  body : option value
}.

(** What sending a request gives: an exception of the transport (no
    connection, timeout, ...) or the server's response. *)
Inductive outcome : Type :=
| SendFailed
| Replied (r : response).

(** ** Calendar dates (Python's [datetime]) *)

Record datetime : Type := mkDatetime {
  year : Z;
  month : Z;
  day : Z;
  hour : Z;
  minute : Z;
  second : Z;
  microsecond : Z
}.

Definition _MAXORDINAL : Z := 3652059.

Definition _DAYS_IN_MONTH (m : Z) : Z :=
  nth (Z.to_nat m) [-1; 31; 28; 31; 30; 31; 30; 31; 31; 30; 31; 30; 31] 0.

Definition _DAYS_BEFORE_MONTH (m : Z) : Z :=
  nth (Z.to_nat m) [-1; 0; 31; 59; 90; 120; 151; 181; 212; 243; 273; 304; 334] 0.

Definition _is_leap (y : Z) : bool :=
  (y mod 4 =? 0) && (negb (y mod 100 =? 0) || (y mod 400 =? 0)).

Definition _days_before_year (y : Z) : Z :=
  let y := y - 1 in y * 365 + y / 4 - y / 100 + y / 400.

Definition _days_in_month (y m : Z) : Z :=
  if (m =? 2) && _is_leap y then 29 else _DAYS_IN_MONTH m.

Definition _days_before_month (y m : Z) : Z :=
  _DAYS_BEFORE_MONTH m + (if (2 <? m) && _is_leap y then 1 else 0).

Definition _ymd2ord (y m d : Z) : Z :=
  _days_before_year y + _days_before_month y m + d.

Definition _DI400Y : Z := 146097.
Definition _DI100Y : Z := 36524.
Definition _DI4Y : Z := 1461.

(** The date within the 400-year cycle that starts at [year0], from the
    0-based day number [n] in that cycle. *)
Definition _ord2ymd_cycle (year0 n : Z) : Z * Z * Z :=
  let n100 := n / _DI100Y in
  let n := n mod _DI100Y in
  let n4 := n / _DI4Y in
  let n := n mod _DI4Y in
  let n1 := n / 365 in
  let n := n mod 365 in
  let year := year0 + (n100 * 100 + n4 * 4 + n1) in
  if (n1 =? 4) || (n100 =? 4) then (year - 1, 12, 31)
  else
    let leapyear := (n1 =? 3) && (negb (n4 =? 24) || (n100 =? 3)) in
    let month := Z.shiftr (n + 50) 5 in
    let preceding :=
      _DAYS_BEFORE_MONTH month + (if (2 <? month) && leapyear then 1 else 0) in
    if n <? preceding
    then
      let month := month - 1 in
      let preceding :=
        preceding - (_DAYS_IN_MONTH month
                     + (if (month =? 2) && leapyear then 1 else 0)) in
      (year, month, n - preceding + 1)
    else (year, month, n - preceding + 1).

Definition _ord2ymd (n : Z) : Z * Z * Z :=
  let n := n - 1 in
  let n400 := n / _DI400Y in
  let n := n mod _DI400Y in
  _ord2ymd_cycle (n400 * 400 + 1) n.

(** [d.toordinal()] *)
Definition toordinal (t : datetime) : Z := _ymd2ord (year t) (month t) (day t).

(** [datetime.now() + timedelta(days=days)] *)
Definition add_days (t : datetime) (days : Z) : result datetime :=
  if 999999999 <? Z.abs days then Raise OverflowError
  else
    let ord := toordinal t + days in
    if (0 <? ord) && (ord <=? _MAXORDINAL)
    then
      let '(y, m, d) := _ord2ymd ord in
      Ok (mkDatetime y m d (hour t) (minute t) (second t) (microsecond t))
    else Raise OverflowError.

Definition digit (d : Z) : ascii := ascii_of_nat (Z.to_nat (48 + d)).

(** Decimal text of [n] on two and on four digits, zero-filled. *)
Definition pad2 (n : Z) : string :=
  String (digit (n / 10)) (String (digit (n mod 10)) "").

Definition pad4 (n : Z) : string :=
  String (digit (n / 1000)) (String (digit (n / 100 mod 10))
    (String (digit (n / 10 mod 10)) (String (digit (n mod 10)) ""))).

(** [t.strftime("%Y-%m-%d")], given the text of [%Y] *)
Definition strftime_date (fmt_Y : Z -> string) (t : datetime) : string :=
  fmt_Y (year t) +:+ "-" +:+ pad2 (month t) +:+ "-" +:+ pad2 (day t).

(** [t.strftime("%Y%m%d%H%M%S")], given the text of [%Y] *)
Definition strftime_stamp (fmt_Y : Z -> string) (t : datetime) : string :=
  fmt_Y (year t) +:+ pad2 (month t) +:+ pad2 (day t)
  +:+ pad2 (hour t) +:+ pad2 (minute t) +:+ pad2 (second t).

(** A reading a clock can give: a date of the calendar, a time of day. *)
Definition valid_datetime (t : datetime) : Prop :=
  1 <= year t <= 9999 /\ 1 <= month t <= 12
  /\ 1 <= day t <= _days_in_month (year t) (month t)
  /\ 0 <= hour t < 24 /\ 0 <= minute t < 60 /\ 0 <= second t < 60
  /\ 0 <= microsecond t < 1000000.

(** Reading a date back from its [YYYY-MM-DD] text. *)
Definition digit_val (a : ascii) : option Z :=
  let n := Z.of_nat (nat_of_ascii a) in
  if (48 <=? n) && (n <=? 57) then Some (n - 48) else None.

Definition parse_date (s : string) : option (Z * Z * Z) :=
  match s with
  | String y1 (String y2 (String y3 (String y4 (String "-"
      (String m1 (String m2 (String "-" (String d1 (String d2 "")))))))))  =>
      match digit_val y1, digit_val y2, digit_val y3, digit_val y4,
            digit_val m1, digit_val m2, digit_val d1, digit_val d2 with
      | Some a, Some b, Some c, Some d, Some e, Some f, Some g, Some h =>
          Some (1000 * a + 100 * b + 10 * c + d, 10 * e + f, 10 * g + h)
      | _, _, _, _, _, _, _, _ => None
      end
  | _ => None
  end.

(** ** The world and the monad *)

(** A line printed by the driver: the text of the f-string with a hole [{}]
    for each interpolated value, and the values in order. *)
Inductive arg : Type :=
| Str (v : value)                (* {v} *)
| Err (e : exn)                  (* {e} *)
| Fixed (digits : nat) (v : value)      (* {v:.2f} *)
| Percent (digits : nat) (v : value).   (* {v * 100:.1f} *)

Record line : Type := mkLine {
  template : string;
  args : list arg
}.

Record GIIAClient : Type := mkClient {
  base_url : string;
  access_token : value;
  org_id : value;
  user : option User
}.

Record state : Type := mkState {
  self : GIIAClient;
  sent : list request;
  clock_reads : nat;
  stdout : list line
}.

(** The environment: the server's answer to a request given the requests
    sent before it, the successive readings of the local clock, the text
    [str()] gives for floats, lists and dicts, the text [%Y] gives for a year
    below 1000 (zero-filled or not: the platform's C library decides), and
    [os.environ]. *)
Record env : Type := mkEnv {
  server : list request -> request -> outcome;
  clock : nat -> datetime;
  str_other : value -> string;
  short_year : Z -> string;
  environ : gmap string string
}.

Definition M (A : Type) : Type := env -> state -> result A * state.

Definition ret {A} (a : A) : M A := fun _ st => (Ok a, st).

Definition bind {A B} (c : M A) (k : A -> M B) : M B :=
  fun e st =>
    match c e st with
    | (Ok a, st') => k a e st'
    | (Raise x, st') => (Raise x, st')
    end.

Definition raise {A} (x : exn) : M A := fun _ st => (Raise x, st).

Definition lift {A} (r : result A) : M A := fun _ st => (r, st).

(** [try: c  except requests.exceptions.RequestException as e: h e] *)
Definition try_except {A} (c : M A) (h : exn -> M A) : M A :=
  fun e st =>
    match c e st with
    | (Ok a, st') => (Ok a, st')
    | (Raise x, st') => if is_request_exception x then h x e st' else (Raise x, st')
    end.

Declare Scope m_scope.
Delimit Scope m_scope with M.
Notation "x <- c ;; k" := (bind c (fun x => k))
  (at level 100, c at next level, right associativity) : m_scope.
Notation "c ;; k" := (bind c (fun _ => k))
  (at level 100, right associativity) : m_scope.
Local Open Scope m_scope.

Definition get_self : M GIIAClient := fun _ st => (Ok (self st), st).

Definition set_self (c : GIIAClient) : M unit :=
  fun _ st => (Ok tt, mkState c (sent st) (clock_reads st) (stdout st)).

Definition set_access_token (v : value) : M unit :=
  c <- get_self ;; set_self (mkClient (base_url c) v (org_id c) (user c)).

Definition set_org_id (v : value) : M unit :=
  c <- get_self ;; set_self (mkClient (base_url c) (access_token c) v (user c)).

Definition set_user (u : option User) : M unit :=
  c <- get_self ;; set_self (mkClient (base_url c) (access_token c) (org_id c) u).

(** [self.session.get(...)] / [self.session.post(...)]: the request is
    logged, then the transport either raises or hands back the response. *)
Definition send (r : request) : M response :=
  fun e st =>
    let st' := mkState (self st) (sent st ++ [r]) (clock_reads st) (stdout st) in
    match server e (sent st) r with
    | SendFailed => (Raise ConnectionError, st')
    | Replied resp => (Ok resp, st')
    end.

(** [response.raise_for_status()]: raises for 4xx and 5xx statuses. *)
Definition raise_for_status (r : response) : M unit :=
  if (400 <=? status_code r) && (status_code r <? 600)
  then raise (HTTPError (status_code r))
  else ret tt.

(** [response.json()] *)
Definition json (r : response) : M value :=
  match body r with
  | Some v => ret v
  | None => raise JSONDecodeError
  end.

(** [str(v)], as used by f-strings. *)
Definition py_str (e : env) (v : value) : string :=
  match v with
  | VNone => "None"
  | VBool true => "True"
  | VBool false => "False"
  | VInt z => pretty z
  | VStr s => s
  | _ => str_other e v
  end.

Definition fstr (prefix : string) (v : value) : M string :=
  fun e st => (Ok (prefix +:+ py_str e v), st).

(** ** The client *)

(** [GIIAClient.__init__] *)
Definition init (url : string) : GIIAClient := mkClient url VNone VNone None.

(** [GIIAClient._headers], a property: a function of the client it is read
    from. *)
Definition _headers (e : env) (c : GIIAClient) : gmap string value :=
  let headers : gmap string value := {[ "Content-Type" := VStr "application/json" ]} in
  let headers :=
    if truthy (access_token c)
    then <[ "Authorization" := VStr ("Bearer " +:+ py_str e (access_token c)) ]> headers
    else headers in
  let headers :=
    if truthy (org_id c)
    then <[ "X-Organization-ID" := org_id c ]> headers
    else headers in
  headers.

(** Reading a property of [self]. *)
Definition property {A} (f : env -> GIIAClient -> A) : M A :=
  fun e st => (Ok (f e (self st)), st).

Definition endpoint (port_path : string) : M string :=
  c <- get_self ;; ret (base_url c +:+ port_path).

(** [GIIAClient.login] *)
Definition login (email password : string) : M User :=
  url <- endpoint ":8081/api/v1/auth/login" ;;
  response <- send (mkRequest POST url None None
                      (Some (VDict (<[ "email" := VStr email ]>
                                    (<[ "password" := VStr password ]> ∅))))) ;;
  raise_for_status response ;;
  data <- json response ;;
  tok <- lift (getitem data "access_token") ;;
  set_access_token tok ;;
  u <- lift (getitem data "user") ;;
  org <- lift (getitem u "organization_id") ;;
  set_org_id org ;;
  u <- lift (getitem data "user") ;;
  uid <- lift (getitem u "id") ;;
  u <- lift (getitem data "user") ;;
  email' <- lift (getitem u "email") ;;
  u <- lift (getitem data "user") ;;
  first <- lift (get u "first_name" (VStr "")) ;;
  u <- lift (getitem data "user") ;;
  last <- lift (get u "last_name" (VStr "")) ;;
  u <- lift (getitem data "user") ;;
  org' <- lift (getitem u "organization_id") ;;
  u <- lift (getitem data "user") ;;
  roles <- lift (get u "roles" (VList [])) ;;
  let usr := mkUser uid email' first last org' roles in
  set_user (Some usr) ;;
  ret usr.

(** [GIIAClient.refresh_token] *)
Definition refresh_token : M value :=
  url <- endpoint ":8081/api/v1/auth/refresh" ;;
  response <- send (mkRequest POST url None None None) ;;
  raise_for_status response ;;
  data <- json response ;;
  tok <- lift (getitem data "access_token") ;;
  set_access_token tok ;;
  c <- get_self ;;
  ret (access_token c).

(** [GIIAClient.logout] *)
Definition logout : M unit :=
  url <- endpoint ":8081/api/v1/auth/logout" ;;
  headers <- property _headers ;;
  _ <- send (mkRequest POST url (Some headers) None None) ;;
  set_access_token VNone ;;
  set_org_id VNone ;;
  set_user None.

(** The [Product(id=p["id"], ..., status=p.get("status", "active"))]
    expression of [list_products], [get_product] and [create_product]. *)
Definition make_Product (p : value) : M Product :=
  id <- lift (getitem p "id") ;;
  sku <- lift (getitem p "sku") ;;
  name <- lift (getitem p "name") ;;
  category <- lift (get p "category" (VStr "")) ;;
  unit_of_measure <- lift (get p "unit_of_measure" (VStr "")) ;;
  status <- lift (get p "status" (VStr "active")) ;;
  ret (mkProduct id sku name category unit_of_measure status).

(** The [Buffer(product_id=b.get("product_id", product_id), ...)] expression
    of [get_buffer] and [calculate_buffer]. *)
Definition make_Buffer (b product_id : value) : M Buffer :=
  pid <- lift (get b "product_id" product_id) ;;
  zone <- lift (get b "zone" (VStr "unknown")) ;;
  nfp <- lift (get b "net_flow_position" (VInt 0)) ;;
  pen <- lift (get b "buffer_penetration" (VInt 0)) ;;
  red <- lift (get b "red_zone" (VInt 0)) ;;
  yellow <- lift (get b "yellow_zone" (VInt 0)) ;;
  green <- lift (get b "green_zone" (VInt 0)) ;;
  ret (mkBuffer pid zone nfp pen red yellow green).

Fixpoint mapM {A B} (f : A -> M B) (l : list A) : M (list B) :=
  match l with
  | [] => ret []
  | x :: l' => y <- f x ;; ys <- mapM f l' ;; ret (y :: ys)
  end.

Definition chars (s : string) : list value :=
  (fun a => VStr (String a "")) <$> list_ascii_of_string s.

(** The items a [for] loop over [v] visits.  A dict gives its keys; their
    order is the map's, not the insertion order, which no caller observes:
    every key is a [str], and the loop bodies below fail alike on each. *)
Definition iterate (v : value) : M (list value) :=
  match v with
  | VList l => ret l
  | VStr s => ret (chars s)
  | VDict d => ret (VStr <$> (map_to_list d).*1)
  | _ => raise TypeError
  end.

(** [GIIAClient.list_products] *)
Definition list_products (page page_size : Z) (status : option string)
  : M (list Product) :=
  let params : gmap string value :=
    <[ "page" := VInt page ]> (<[ "page_size" := VInt page_size ]> ∅) in
  let params :=
    match status with
    | Some s => if negb (String.eqb s "")
                then <[ "status" := VStr s ]> params else params
    | None => params
    end in
  url <- endpoint ":8082/api/v1/products" ;;
  headers <- property _headers ;;
  response <- send (mkRequest GET url (Some headers) (Some params) None) ;;
  raise_for_status response ;;
  data <- json response ;;
  products <- lift (get data "products" (VList [])) ;;
  items <- iterate products ;;
  mapM make_Product items.

(** [GIIAClient.get_product] *)
Definition get_product (product_id : value) : M Product :=
  c <- get_self ;;
  url <- fstr (base_url c +:+ ":8082/api/v1/products/") product_id ;;
  headers <- property _headers ;;
  response <- send (mkRequest GET url (Some headers) None None) ;;
  raise_for_status response ;;
  p <- json response ;;
  make_Product p.

(** [GIIAClient.create_product] *)
Definition create_product (sku name category unit_of_measure : string)
  : M Product :=
  url <- endpoint ":8082/api/v1/products" ;;
  headers <- property _headers ;;
  response <- send (mkRequest POST url (Some headers) None
                      (Some (VDict (<[ "sku" := VStr sku ]>
                                    (<[ "name" := VStr name ]>
                                     (<[ "category" := VStr category ]>
                                      (<[ "unit_of_measure" := VStr unit_of_measure ]>
                                       ∅))))))) ;;
  raise_for_status response ;;
  p <- json response ;;
  make_Product p.

(** [GIIAClient.get_buffer] *)
Definition get_buffer (product_id : value) : M Buffer :=
  c <- get_self ;;
  url <- fstr (base_url c +:+ ":8083/api/v1/buffers/") product_id ;;
  headers <- property _headers ;;
  response <- send (mkRequest GET url (Some headers) None None) ;;
  raise_for_status response ;;
  data <- json response ;;
  b <- lift (get data "buffer" (VDict ∅)) ;;
  make_Buffer b product_id.

(** [GIIAClient.calculate_buffer] *)
Definition calculate_buffer (product_id : value) : M Buffer :=
  c <- get_self ;;
  url <- fstr (base_url c +:+ ":8083/api/v1/buffers/") product_id ;;
  headers <- property _headers ;;
  response <- send (mkRequest POST (url +:+ "/calculate") (Some headers) None None) ;;
  raise_for_status response ;;
  data <- json response ;;
  b <- lift (get data "buffer" (VDict ∅)) ;;
  make_Buffer b product_id.

(** [datetime.now()]: the next reading of the clock. *)
Definition datetime_now : M datetime :=
  fun e st =>
    (Ok (clock e (clock_reads st)),
     mkState (self st) (sent st) (S (clock_reads st)) (stdout st)).

(** The text of [%Y]. *)
Definition fmt_Y (e : env) (y : Z) : string :=
  if 1000 <=? y then pad4 y else short_year e y.

Definition strftime_ymd (t : datetime) : M string :=
  fun e st => (Ok (strftime_date (fmt_Y e) t), st).

(** [GIIAClient.create_purchase_order] *)
Definition create_purchase_order (po_number supplier_id : string)
    (line_items : value) (expected_days : Z) : M value :=
  url <- endpoint ":8084/api/v1/purchase-orders" ;;
  headers <- property _headers ;;
  today <- datetime_now ;;
  order_date <- strftime_ymd today ;;
  today' <- datetime_now ;;
  arrival <- lift (add_days today' expected_days) ;;
  expected_arrival_date <- strftime_ymd arrival ;;
  response <- send (mkRequest POST url (Some headers) None
                      (Some (VDict (<[ "po_number" := VStr po_number ]>
                                    (<[ "supplier_id" := VStr supplier_id ]>
                                     (<[ "order_date" := VStr order_date ]>
                                      (<[ "expected_arrival_date" := VStr expected_arrival_date ]>
                                       (<[ "line_items" := line_items ]> ∅)))))))) ;;
  raise_for_status response ;;
  json response.

(** [GIIAClient.list_purchase_orders] *)
Definition list_purchase_orders (status : option string) : M value :=
  let params : gmap string value :=
    match status with
    | Some s => if negb (String.eqb s "") then <[ "status" := VStr s ]> ∅ else ∅
    | None => ∅
    end in
  url <- endpoint ":8084/api/v1/purchase-orders" ;;
  headers <- property _headers ;;
  response <- send (mkRequest GET url (Some headers) (Some params) None) ;;
  raise_for_status response ;;
  data <- json response ;;
  lift (get data "data" (VList [])).

(** [GIIAClient.get_kpi_snapshot] *)
Definition get_kpi_snapshot : M value :=
  url <- endpoint ":8085/api/v1/analytics/snapshot" ;;
  headers <- property _headers ;;
  response <- send (mkRequest GET url (Some headers) None None) ;;
  raise_for_status response ;;
  json response.

(** [str(b)] for a [bool], and [s.lower()]. *)
Definition str_bool (b : bool) : string := if b then "True" else "False".

Definition lower_char (a : ascii) : ascii :=
  let n := nat_of_ascii a in
  if ((65 <=? n) && (n <=? 90))%nat then ascii_of_nat (n + 32) else a.

Fixpoint lower (s : string) : string :=
  match s with
  | EmptyString => EmptyString
  | String a s' => String (lower_char a) (lower s')
  end.

(** [GIIAClient.get_notifications] *)
Definition get_notifications (unread_only : bool) : M value :=
  let params : gmap string value :=
    {[ "unread_only" := VStr (lower (str_bool unread_only)) ]} in
  url <- endpoint ":8086/api/v1/notifications" ;;
  headers <- property _headers ;;
  response <- send (mkRequest GET url (Some headers) (Some params) None) ;;
  raise_for_status response ;;
  data <- json response ;;
  lift (get data "notifications" (VList [])).

(** ** The example driver *)

Definition emit (l : line) : M unit :=
  fun _ st => (Ok tt, mkState (self st) (sent st) (clock_reads st) (stdout st ++ [l])).

(** The least magnitude of an [int] that no longer converts to a [float]. *)
Definition float_overflow : Z := 2 ^ 1024 - 2 ^ 970.

(** Whether [format(v, ".Nf")] goes through. *)
Definition format_fixed (v : value) : result unit :=
  match v with
  | VBool _ | VFloat _ _ => Ok tt
  | VInt z => if Z.abs z <? float_overflow then Ok tt else Raise OverflowError
  | VStr _ => Raise ValueError
  | VNone | VList _ | VDict _ => Raise TypeError
  end.

(** Whether [format(v * 100, ".Nf")] goes through: [None] and a dict have
    no product; a str or a list repeated 100 times has no such format. *)
Definition format_percent (v : value) : result unit :=
  match v with
  | VBool _ | VFloat _ _ => Ok tt
  | VInt z => if Z.abs (z * 100) <? float_overflow then Ok tt else Raise OverflowError
  | VStr _ => Raise ValueError
  | VNone | VList _ | VDict _ => Raise TypeError
  end.

(** Evaluating a replacement field of an f-string. *)
Definition eval_arg (a : arg) : result unit :=
  match a with
  | Str _ | Err _ => Ok tt
  | Fixed _ v => format_fixed v
  | Percent _ v => format_percent v
  end.

Fixpoint eval_args (l : list arg) : result unit :=
  match l with
  | [] => Ok tt
  | a :: l' => match eval_arg a with Ok _ => eval_args l' | Raise x => Raise x end
  end.

(** [print(f"...")] *)
Definition print (template : string) (args : list arg) : M unit :=
  lift (eval_args args) ;; emit (mkLine template args).

(** [len(v)] *)
Definition len (v : value) : result Z :=
  match v with
  | VList l => Ok (Z.of_nat (length l))
  | VStr s => Ok (Z.of_nat (String.length s))
  | VDict d => Ok (Z.of_nat (size d))
  | _ => Raise TypeError
  end.

(** [v[:3]], as the list of its items.  A dict has no slices: the slice
    object is not hashable, a [TypeError] (from Python 3.12 on it is, and the
    lookup of it as a key fails with a [KeyError]; neither is a request
    exception). *)
Definition slice_3 (v : value) : result (list value) :=
  match v with
  | VList l => Ok (take 3 l)
  | VStr s => Ok (take 3 (chars s))
  | VDict _ => Raise TypeError
  | _ => Raise TypeError
  end.

(** [os.environ.get(k, dflt)] *)
Definition environ_get (k dflt : string) : M string :=
  fun e st => (Ok (default dflt (environ e !! k)), st).

Definition rule : string := "==================================================".

Definition nl : string := String (ascii_of_nat 10) "".

(** Step 1; the result tells whether the driver goes on. *)
Definition step_login : M bool :=
  print (nl +:+ "1. Authenticating...") [] ;;
  email <- environ_get "GIIA_EMAIL" "demo@example.com" ;;
  password <- environ_get "GIIA_PASSWORD" "password" ;;
  try_except
    (user <- login email password ;;
     print "   ✓ Logged in as {}" [Str (u_email user)] ;;
     print "   ✓ Organization: {}" [Str (u_organization_id user)] ;;
     ret true)
    (fun e =>
     print "   ✗ Login failed: {}" [Err e] ;;
     ret false).

(** Step 2; the result is the driver's [products]. *)
Definition step_list_products : M (list Product) :=
  print (nl +:+ "2. Listing products...") [] ;;
  try_except
    (products <- list_products 1 5 None ;;
     print "   ✓ Found {} products" [Str (VInt (Z.of_nat (length products)))] ;;
     mapM (fun p => print "      - {}: {}" [Str (p_sku p); Str (p_name p)])
          (take 3 products) ;;
     ret products)
    (fun e =>
     print "   ✗ Failed: {}" [Err e] ;;
     ret []).

(** Step 3 *)
Definition step_create_product : M unit :=
  print (nl +:+ "3. Creating product...") [] ;;
  try_except
    (now <- datetime_now ;;
     stamp <- (fun e st => (Ok (strftime_stamp (fmt_Y e) now), st)) ;;
     new_product <- create_product ("PY-" +:+ stamp) "Python Demo Product" "Demo" "units" ;;
     print "   ✓ Created: {} - {}" [Str (p_sku new_product); Str (p_name new_product)])
    (fun e => print "   ✗ Failed: {}" [Err e]).

(** Step 4 *)
Definition step_check_buffer (products : list Product) : M unit :=
  print (nl +:+ "4. Checking buffer status...") [] ;;
  match products with
  | [] => ret tt
  | first :: _ =>
      try_except
        (buffer <- get_buffer (p_id first) ;;
         print "   ✓ Buffer for {}:" [Str (p_sku first)] ;;
         print "      Zone: {}" [Str (b_zone buffer)] ;;
         print "      NFP: {}" [Fixed 2 (b_net_flow_position buffer)] ;;
         print "      Penetration: {}%" [Percent 1 (b_buffer_penetration buffer)])
        (fun e => print "   ✗ Failed: {}" [Err e])
  end.

(** Step 5 *)
Definition step_kpi_snapshot : M unit :=
  print (nl +:+ "5. Getting KPI snapshot...") [] ;;
  try_except
    (kpis <- get_kpi_snapshot ;;
     service_level <- lift (get kpis "service_level" (VInt 0)) ;;
     print "   ✓ Service Level: {}%" [Percent 1 service_level] ;;
     stockout_rate <- lift (get kpis "stockout_rate" (VInt 0)) ;;
     print "   ✓ Stockout Rate: {}%" [Percent 1 stockout_rate])
    (fun e => print "   ✗ Failed: {}" [Err e]).

(** Step 6 *)
Definition step_notifications : M unit :=
  print (nl +:+ "6. Getting notifications...") [] ;;
  try_except
    (notifications <- get_notifications true ;;
     n <- lift (len notifications) ;;
     print "   ✓ {} unread notifications" [Str (VInt n)] ;;
     items <- lift (slice_3 notifications) ;;
     mapM (fun n =>
             priority <- lift (get n "priority" (VStr "info")) ;;
             title <- lift (get n "title" (VStr "Untitled")) ;;
             print "      - [{}] {}" [Str priority; Str title])
          items ;;
     ret tt)
    (fun e => print "   ✗ Failed: {}" [Err e]).

(** The steps after a successful login. *)
Definition after_login : M unit :=
  products <- step_list_products ;;
  step_create_product ;;
  step_check_buffer products ;;
  step_kpi_snapshot ;;
  step_notifications ;;
  print (nl +:+ rule) [] ;;
  print "Example complete!" [] ;;
  print rule [].

(** [main] *)
Definition main : M unit :=
  print rule [] ;;
  print "GIIA Platform Python Client Example" [] ;;
  print rule [] ;;
  url <- environ_get "GIIA_API_URL" "http://localhost" ;;
  set_self (init url) ;;
  logged_in <- step_login ;;
  if logged_in : bool then after_login else ret tt.

(** ** Vocabulary of the statements *)

(** The call that took [st] to [st'] sent exactly one request, and the
    server answered it with [resp]. *)
Definition answered (e : env) (st st' : state) (resp : response) : Prop :=
  exists r, sent st' = sent st ++ [r] /\ server e (sent st) r = Replied resp.

(** The call that took [st] to [st'] sent exactly one request, and the
    transport failed to deliver it. *)
Definition undelivered (e : env) (st st' : state) : Prop :=
  exists r, sent st' = sent st ++ [r] /\ server e (sent st) r = SendFailed.

(** The statuses [raise_for_status] raises for. *)
Definition error_status (s : Z) : Prop := 400 <= s < 600.

(** The product a JSON object with [id], [sku] and [name] is mapped to, and
    the buffer a JSON object is mapped to for a given product id: a field
    that is absent takes its default. *)
Definition product_with_defaults (p : gmap string value) (i s n : value) : Product :=
  mkProduct i s n
    (default (VStr "") (p !! "category"))
    (default (VStr "") (p !! "unit_of_measure"))
    (default (VStr "active") (p !! "status")).

Definition buffer_with_defaults (b : gmap string value) (product_id : value) : Buffer :=
  mkBuffer
    (default product_id (b !! "product_id"))
    (default (VStr "unknown") (b !! "zone"))
    (default (VInt 0) (b !! "net_flow_position"))
    (default (VInt 0) (b !! "buffer_penetration"))
    (default (VInt 0) (b !! "red_zone"))
    (default (VInt 0) (b !! "yellow_zone"))
    (default (VInt 0) (b !! "green_zone")).

Definition has_required_keys (v : value) : Prop :=
  exists p, v = VDict p /\ is_Some (p !! "id") /\ is_Some (p !! "sku")
            /\ is_Some (p !! "name").

Definition maps_to_product (v : value) (prod : Product) : Prop :=
  exists p i s n,
    v = VDict p /\ p !! "id" = Some i /\ p !! "sku" = Some s /\ p !! "name" = Some n
    /\ prod = product_with_defaults p i s n.

(** The calls of the client that pass [headers=self._headers]: all but
    [login] and [refresh_token]. *)
Inductive call : Type :=
| Logout
| ListProducts (page page_size : Z) (status : option string)
| GetProduct (product_id : value)
| CreateProduct (sku name category unit_of_measure : string)
| GetBuffer (product_id : value)
| CalculateBuffer (product_id : value)
| CreatePurchaseOrder (po_number supplier_id : string) (line_items : value)
    (expected_days : Z)
| ListPurchaseOrders (status : option string)
| GetKpiSnapshot
| GetNotifications (unread_only : bool).

Definition perform (c : call) : M unit :=
  match c with
  | Logout => logout
  | ListProducts page page_size status =>
      _ <- list_products page page_size status ;; ret tt
  | GetProduct product_id => _ <- get_product product_id ;; ret tt
  | CreateProduct sku name category unit_of_measure =>
      _ <- create_product sku name category unit_of_measure ;; ret tt
  | GetBuffer product_id => _ <- get_buffer product_id ;; ret tt
  | CalculateBuffer product_id => _ <- calculate_buffer product_id ;; ret tt
  | CreatePurchaseOrder po_number supplier_id line_items expected_days =>
      _ <- create_purchase_order po_number supplier_id line_items expected_days ;;
      ret tt
  | ListPurchaseOrders status => _ <- list_purchase_orders status ;; ret tt
  | GetKpiSnapshot => _ <- get_kpi_snapshot ;; ret tt
  | GetNotifications unread_only => _ <- get_notifications unread_only ;; ret tt
  end.

(** The request of [create_purchase_order] for given texts of the dates. *)
Definition purchase_order_request (e : env) (c : GIIAClient)
    (po_number supplier_id : string) (line_items : value)
    (order_date expected_arrival_date : string) : request :=
  mkRequest POST (base_url c +:+ ":8084/api/v1/purchase-orders")
    (Some (_headers e c)) None
    (Some (VDict (<[ "po_number" := VStr po_number ]>
                  (<[ "supplier_id" := VStr supplier_id ]>
                   (<[ "order_date" := VStr order_date ]>
                    (<[ "expected_arrival_date" := VStr expected_arrival_date ]>
                     (<[ "line_items" := line_items ]> ∅))))))).

(** Checking a property of every day number from [z] on, [fuel] of them. *)
Fixpoint all_from (fuel : nat) (z : Z) (P : Z -> bool) : bool :=
  match fuel with
  | O => true
  | S fuel' => P z && all_from fuel' (z + 1) P
  end.

(** What is checked of day [n] of the first 400-year cycle: its date is a
    date of the calendar, [_ymd2ord] gives its ordinal back, and its year is
    where the bounds on ordinals put it. *)
Definition cycle_day_ok (n : Z) : bool :=
  let '(y, m, d) := _ord2ymd_cycle 1 n in
  (1 <=? y) && (y <=? 400) && (1 <=? m) && (m <=? 12)
  && (1 <=? d) && (d <=? _days_in_month y m)
  && (_ymd2ord y m d =? n + 1)
  && ((y <? 400) || (145731 <=? n))
  && ((n <? 72683) || (200 <=? y)).

(** The requests a computation adds to the log. *)
Definition requests_of {A} (c : M A) (e : env) (st : state) : list request :=
  drop (length (sent st)) (sent (snd (c e st))).

(** [r] carries the headers of the session of client [c]: the content type,
    the bearer token exactly when the token is truthy, the organization id
    exactly when it is truthy. *)
Definition carries_session_headers (e : env) (c : GIIAClient) (r : request) : Prop :=
  exists h,
    req_headers r = Some h /\
    h !! "Content-Type" = Some (VStr "application/json") /\
    h !! "Authorization"
    = (if truthy (access_token c)
       then Some (VStr ("Bearer " +:+ py_str e (access_token c))) else None) /\
    h !! "X-Organization-ID"
    = (if truthy (org_id c) then Some (org_id c) else None).

(** Sample worlds for the closed examples. *)
Definition sample_clock (n : nat) : datetime :=
  match n with
  | O => mkDatetime 2026 11 4 9 30 0 0
  | _ => mkDatetime 2026 11 4 9 30 0 1
  end.

Definition world (srv : list request -> request -> outcome) : env :=
  mkEnv srv sample_clock (fun _ => "") pretty ∅.

Definition offline : env := world (fun _ _ => SendFailed).

(** A clock read just before and just after midnight. *)
Definition midnight_clock (n : nat) : datetime :=
  match n with
  | O => mkDatetime 2026 11 4 23 59 59 999999
  | _ => mkDatetime 2026 11 5 0 0 0 3
  end.

Definition over_midnight : env :=
  mkEnv (fun _ _ => Replied (mkResponse 201 None)) midnight_clock (fun _ => "") pretty ∅.

Definition always (status : Z) (b : option value) : env :=
  world (fun _ _ => Replied (mkResponse status b)).

Definition sample_user : User :=
  mkUser (VStr "u-1") (VStr "ana@example.com") (VStr "Ana") (VStr "Diaz")
         (VStr "org-1") (VList [VStr "planner"]).

Definition logged_in : state :=
  mkState (mkClient "http://localhost" (VStr "tok-1") (VStr "org-1") (Some sample_user))
          [] 0 [].

Definition fresh : state := mkState (init "http://localhost") [] 0 [].

Definition full_user : gmap string value :=
  <[ "id" := VStr "u-2" ]> (<[ "email" := VStr "bo@example.com" ]>
  (<[ "organization_id" := VStr "org-2" ]> (<[ "first_name" := VStr "Bo" ]> ∅))).

Definition full_login : gmap string value :=
  <[ "access_token" := VStr "tok-2" ]> (<[ "user" := VDict full_user ]> ∅).

Definition bare_product : gmap string value :=
  <[ "id" := VStr "p-1" ]> (<[ "sku" := VStr "SKU-1" ]> (<[ "name" := VStr "Bolt" ]> ∅)).

Definition one_product : gmap string value :=
  <[ "products" := VList [VDict bare_product] ]> ∅.

Definition empty_credentials : gmap string value :=
  <[ "access_token" := VStr "" ]>
  (<[ "user" := VDict (<[ "id" := VStr "u-3" ]> (<[ "email" := VStr "cy@example.com" ]>
                       (<[ "organization_id" := VStr "" ]> ∅))) ]> ∅).

Definition token_only : gmap string value :=
  <[ "access_token" := VStr "tok-2" ]> ∅.

Definition user_without_id : gmap string value :=
  <[ "organization_id" := VStr "org-2" ]> ∅.

Definition login_without_id : gmap string value :=
  <[ "access_token" := VStr "tok-2" ]> (<[ "user" := VDict user_without_id ]> ∅).

(** The computation sends nothing. *)
Definition silent {A} (c : M A) : Prop :=
  forall e st, sent (snd (c e st)) = sent st.

(** The request of [login]. *)
Definition login_request (email password : string) (c : GIIAClient) : request :=
  mkRequest POST (base_url c +:+ ":8081/api/v1/auth/login") None None
    (Some (VDict (<[ "email" := VStr email ]> (<[ "password" := VStr password ]> ∅)))).

(** The state after request [r] was sent. *)
Definition logged (r : request) (st : state) : state :=
  mkState (self st) (sent st ++ [r]) (clock_reads st) (stdout st).

(** The driver's configuration, read from the process environment. *)
Definition driver_url (e : env) : string :=
  default "http://localhost" (environ e !! "GIIA_API_URL").

Definition driver_email (e : env) : string :=
  default "demo@example.com" (environ e !! "GIIA_EMAIL").

Definition driver_password (e : env) : string :=
  default "password" (environ e !! "GIIA_PASSWORD").

(** The state after a line was printed, and after the clock was read. *)
Definition printed (template : string) (args : list arg) (st : state) : state :=
  mkState (self st) (sent st) (clock_reads st) (stdout st ++ [mkLine template args]).

Definition ticked (st : state) : state :=
  mkState (self st) (sent st) (S (clock_reads st)) (stdout st).

(** The state in which [main] calls [login]: the banner and the heading of
    step 1 are printed, the client is new. *)
Definition at_login (e : env) (st : state) : state :=
  let st := printed rule [] (printed "GIIA Platform Python Client Example" []
                               (printed rule [] st)) in
  printed (nl +:+ "1. Authenticating...") []
    (mkState (init (driver_url e)) (sent st) (clock_reads st) (stdout st)).


(** The product name the driver creates at clock reading [t]. *)
Definition demo_sku (e : env) (t : datetime) : string :=
  "PY-" +:+ strftime_stamp (fmt_Y e) t.


(** No request exception leaves the computation. *)
Definition contained {A} (c : M A) : Prop :=
  forall e st x, fst (c e st) = Raise x -> is_request_exception x = false.

(** A server that accepts the login and is unreachable afterwards. *)
Definition outage_after_login : env :=
  world (fun history _ =>
           match history with
           | [] => Replied (mkResponse 200 (Some (VDict full_login)))
           | _ => SendFailed
           end).

(** A server that answers every step of the driver but the buffer check,
    which it answers with 503. *)
Definition buffer_service_down : env :=
  world (fun history _ =>
           match length history with
           | 0%nat => Replied (mkResponse 200 (Some (VDict full_login)))
           | 1%nat => Replied (mkResponse 200 (Some (VDict one_product)))
           | 2%nat => Replied (mkResponse 201 (Some (VDict bare_product)))
           | 3%nat => Replied (mkResponse 503 None)
           | 4%nat => Replied (mkResponse 200
                                 (Some (VDict (<[ "service_level" := VFloat 7 (-3) ]> ∅))))
           | _ => Replied (mkResponse 200 (Some (VDict ∅)))
           end).

(** ** Vocabulary of the further properties *)

(** The computation leaves the session fields of the client as they are. *)
Definition keeps_session {A} (c : M A) : Prop :=
  forall e st, self (snd (c e st)) = self st.

(** The computation leaves the base URL of the client as it is. *)
Definition keeps_url {A} (c : M A) : Prop :=
  forall e st, base_url (self (snd (c e st))) = base_url (self st).

(** The request of [refresh_token]. *)
Definition refresh_request (c : GIIAClient) : request :=
  mkRequest POST (base_url c +:+ ":8081/api/v1/auth/refresh") None None None.

(** A page of products whose second item has no [id]. *)
Definition mixed_products : gmap string value :=
  <[ "products" := VList [VDict bare_product; VDict token_only] ]> ∅.

(** A buffer response whose ["buffer"] is [null]. *)
Definition null_buffer : gmap string value := <[ "buffer" := VNone ]> ∅.

(** A response whose ["data"] is [null]. *)
Definition null_data : gmap string value := <[ "data" := VNone ]> ∅.

(** The computation adds at most [n] requests to the log. *)
Definition sends_at_most {A} (n : nat) (c : M A) : Prop :=
  forall e st, exists l,
    sent (snd (c e st)) = sent st ++ l /\ (length l <= n)%nat.

(** ** Vocabulary of the driver's runs and of the date range *)
(** Whether the date arithmetic of call [c] goes through in state [st]: it
    always does, but for a purchase order whose lead time is above 999999999
    days in magnitude or takes the second reading of the clock out of the
    years 1 to 9999. *)
Definition date_in_range (e : env) (st : state) (c : call) : Prop :=
  match c with
  | CreatePurchaseOrder _ _ _ expected_days =>
      Z.abs expected_days <= 999999999 /\
      1 <= toordinal (clock e (S (clock_reads st))) + expected_days <= _MAXORDINAL
  | _ => True
  end.




(** * Properties *)

(** ** Running a method: shared steps *)

Lemma app_one_inv {A} (l : list A) (x y : A) : l ++ [x] = l ++ [y] -> x = y.
Proof. intros H. apply app_inv_head in H. congruence. Qed.

Ltac run :=
  repeat (cbv beta iota zeta delta
            [bind endpoint property get_self set_access_token set_org_id
             set_user set_self send ret raise lift fstr json raise_for_status];
          cbn [self sent clock_reads stdout base_url access_token org_id user
               status_code body fst snd]).

(** ** Authentication *)

Lemma logout_run e st :
  logout e st =
  let r := mkRequest POST (base_url (self st) +:+ ":8081/api/v1/auth/logout")
             (Some (_headers e (self st))) None None in
  match server e (sent st) r with
  | SendFailed =>
      (Raise ConnectionError,
       mkState (self st) (sent st ++ [r]) (clock_reads st) (stdout st))
  | Replied _ =>
      (Ok tt,
       mkState (mkClient (base_url (self st)) VNone VNone None)
               (sent st ++ [r]) (clock_reads st) (stdout st))
  end.
Proof.
  unfold logout. run. destruct (server e (sent st) _); reflexivity.
Qed.

(** C1 (as amended).  [logout] sends one request.  When the server answers
    it, whatever the status of the response, the access token, the
    organization id and the user are all cleared to [None]; the response is
    not looked at.  When the request cannot be delivered, the exception of
    the transport leaves [logout] before the clearing and the session is as
    it was. *)
Theorem logout_clears_unless_send_fails (e : env) (st : state) :
  let st' := snd (logout e st) in
  exists r,
    sent st' = sent st ++ [r] /\
    req_url r = base_url (self st) +:+ ":8081/api/v1/auth/logout" /\
    match server e (sent st) r with
    | Replied _ =>
        fst (logout e st) = Ok tt /\
        access_token (self st') = VNone /\
        org_id (self st') = VNone /\
        user (self st') = None /\
        base_url (self st') = base_url (self st)
    | SendFailed =>
        fst (logout e st) = Raise ConnectionError /\
        self st' = self st
    end.
Proof.
  rewrite logout_run. cbv zeta.
  eexists. split; [|split].
  - destruct (server e (sent st) _); reflexivity.
  - reflexivity.
  - cbn [req_url]. destruct (server e (sent st) _); cbn; auto.
Qed.

(** C1, as stated, fails: with no connection to the server, [logout] raises
    and the token, the organization id and the user stay in place. *)
Lemma logout_offline_keeps_session :
  fst (logout offline logged_in) = Raise ConnectionError /\
  access_token (self (snd (logout offline logged_in))) = VStr "tok-1" /\
  org_id (self (snd (logout offline logged_in))) = VStr "org-1" /\
  user (self (snd (logout offline logged_in))) = Some sample_user.
Proof. vm_compute. auto. Qed.

(** With a server that answers 500, the same call clears the session. *)
Example logout_on_500 :
  fst (logout (always 500 None) logged_in) = Ok tt /\
  self (snd (logout (always 500 None) logged_in)) = init "http://localhost".
Proof. vm_compute. auto. Qed.

(** ** Computations that send nothing *)

Lemma silent_ret {A} (a : A) : silent (ret a).
Proof. intros e st. reflexivity. Qed.

Lemma silent_raise {A} (x : exn) : silent (@raise A x).
Proof. intros e st. reflexivity. Qed.

Lemma silent_lift {A} (r : result A) : silent (lift r).
Proof. intros e st. reflexivity. Qed.

Lemma silent_bind {A B} (c : M A) (k : A -> M B) :
  silent c -> (forall a, silent (k a)) -> silent (bind c k).
Proof.
  intros Hc Hk e st. unfold bind. specialize (Hc e st).
  destruct (c e st) as [[a|x] st1]; cbn in *.
  - rewrite Hk. exact Hc.
  - exact Hc.
Qed.

Lemma silent_get_self : silent get_self.
Proof. intros e st. reflexivity. Qed.

Lemma silent_set_self c : silent (set_self c).
Proof. intros e st. reflexivity. Qed.

Lemma silent_set_access_token v : silent (set_access_token v).
Proof. intros e st. reflexivity. Qed.

Lemma silent_set_org_id v : silent (set_org_id v).
Proof. intros e st. reflexivity. Qed.

Lemma silent_set_user u : silent (set_user u).
Proof. intros e st. reflexivity. Qed.

Lemma silent_property {A} (f : env -> GIIAClient -> A) : silent (property f).
Proof. intros e st. reflexivity. Qed.

Lemma silent_raise_for_status r : silent (raise_for_status r).
Proof. intros e st. unfold raise_for_status. destruct (_ && _); reflexivity. Qed.

Lemma silent_json r : silent (json r).
Proof. intros e st. unfold json. destruct (body r); reflexivity. Qed.

Lemma silent_mapM {A B} (f : A -> M B) (l : list A) :
  (forall a, silent (f a)) -> silent (mapM f l).
Proof.
  intros Hf. induction l as [|a l IH]; cbn [mapM].
  - apply silent_ret.
  - apply silent_bind; [apply Hf|]. intros b.
    apply silent_bind; [exact IH|]. intros bs. apply silent_ret.
Qed.

Lemma silent_iterate v : silent (iterate v).
Proof. intros e st. destruct v; reflexivity. Qed.

Create HintDb silent.
#[local] Hint Resolve silent_ret silent_raise silent_lift silent_get_self
  silent_set_self silent_set_access_token silent_set_org_id silent_set_user
  silent_property silent_raise_for_status silent_json silent_iterate : silent.

Ltac silence :=
  repeat first
    [ progress (intros; cbv beta)
    | apply silent_bind
    | apply silent_mapM
    | solve [auto with silent] ].

(** A request followed by silent steps leaves exactly that request in the
    log. *)
Lemma sent_after_send {A} (r : request) (k : response -> M A) e st :
  (forall resp, silent (k resp)) ->
  sent (snd (bind (send r) k e st)) = sent st ++ [r].
Proof.
  intros Hk. unfold bind, send.
  destruct (server e (sent st) r) as [|resp]; cbn [snd sent]; [reflexivity|].
  rewrite Hk. reflexivity.
Qed.

Lemma bind_endpoint {A} (p : string) (k : string -> M A) e st :
  bind (endpoint p) k e st = k (base_url (self st) +:+ p) e st.
Proof. reflexivity. Qed.

Lemma bind_property {A B} (f : env -> GIIAClient -> A) (k : A -> M B) e st :
  bind (property f) k e st = k (f e (self st)) e st.
Proof. reflexivity. Qed.

Lemma bind_get_self {A} (k : GIIAClient -> M A) e st :
  bind get_self k e st = k (self st) e st.
Proof. reflexivity. Qed.

Lemma bind_fstr {A} (p : string) (v : value) (k : string -> M A) e st :
  bind (fstr p v) k e st = k (p +:+ py_str e v) e st.
Proof. reflexivity. Qed.

Ltac readers :=
  repeat first [rewrite bind_endpoint | rewrite bind_property
               | rewrite bind_get_self | rewrite bind_fstr].

Lemma login_sent email password e st :
  sent (snd (login email password e st))
  = sent st ++ [login_request email password (self st)].
Proof.
  unfold login, login_request. readers. apply sent_after_send. silence.
Qed.

Lemma error_status_test s :
  (400 <=? s) && (s <? 600) = true <-> error_status s.
Proof. unfold error_status. rewrite andb_true_iff, Z.leb_le, Z.ltb_lt. tauto. Qed.

Lemma error_status_dec s :
  (400 <=? s) && (s <? 600) = false <-> ~ error_status s.
Proof. rewrite <- error_status_test. destruct (_ && _); split; congruence. Qed.

(** The request [login] sends is the one the reply is about. *)
Lemma login_answered email password e st resp :
  answered e st (snd (login email password e st)) resp ->
  server e (sent st) (login_request email password (self st)) = Replied resp.
Proof.
  intros (r & Hs & Hr). rewrite login_sent in Hs.
  apply app_one_inv in Hs. subst r. exact Hr.
Qed.

Ltac login_start H :=
  apply login_answered in H; unfold login_request in H;
  unfold login; run; rewrite H; run.

(** C2 (as amended).  When the server answers [login] with a 4xx or 5xx
    status, [login] raises the HTTP error and the access token, the
    organization id and the user keep their prior values.  When it answers
    with HTTP 200 (or any other status that is not an error status) and a
    JSON object that holds [access_token] and a [user] object with
    [organization_id], [id] and [email], the three fields are set from the
    body and the user is returned. *)
Theorem login_error_or_success (email password : string) (e : env) (st : state)
    (resp : response) :
  answered e st (snd (login email password e st)) resp ->
  let st' := snd (login email password e st) in
  (error_status (status_code resp) ->
   fst (login email password e st) = Raise (HTTPError (status_code resp)) /\
   self st' = self st) /\
  (~ error_status (status_code resp) ->
   forall d u tok org uid em,
     body resp = Some (VDict d) ->
     d !! "access_token" = Some tok ->
     d !! "user" = Some (VDict u) ->
     u !! "organization_id" = Some org ->
     u !! "id" = Some uid ->
     u !! "email" = Some em ->
     let usr := mkUser uid em (default (VStr "") (u !! "first_name"))
                  (default (VStr "") (u !! "last_name")) org
                  (default (VList []) (u !! "roles")) in
     fst (login email password e st) = Ok usr /\
     access_token (self st') = tok /\
     org_id (self st') = org /\
     user (self st') = Some usr).
Proof.
  intros H st'. subst st'. split.
  - intros Hs. apply error_status_test in Hs.
    login_start H. rewrite Hs. cbn. destruct st; auto.
  - intros Hs d u tok org uid em Hb Ht Hu Ho Hi He usr.
    apply error_status_dec in Hs.
    login_start H. rewrite Hs, Hb. unfold getitem, get; run.
    rewrite Ht, Hu; run. rewrite Ho, Hi, He; run. auto.
Qed.

Lemma login_error_or_success_witness :
  (fst (login "bo@example.com" "pw" (always 401 None) logged_in)
   = Raise (HTTPError 401) /\
   self (snd (login "bo@example.com" "pw" (always 401 None) logged_in))
   = self logged_in) /\
  (let out := login "bo@example.com" "pw" (always 200 (Some (VDict full_login))) fresh in
   let usr := mkUser (VStr "u-2") (VStr "bo@example.com") (VStr "Bo") (VStr "")
                (VStr "org-2") (VList []) in
   fst out = Ok usr /\ access_token (self (snd out)) = VStr "tok-2" /\
   org_id (self (snd out)) = VStr "org-2" /\ user (self (snd out)) = Some usr).
Proof.
  split.
  - assert (Ha : answered (always 401 None) logged_in
                   (snd (login "bo@example.com" "pw" (always 401 None) logged_in))
                   (mkResponse 401 None)).
    { exists (login_request "bo@example.com" "pw" (self logged_in)).
      split; reflexivity. }
    apply (login_error_or_success _ _ _ _ _ Ha).
    unfold error_status. cbn. lia.
  - assert (Ha : answered (always 200 (Some (VDict full_login))) fresh
                   (snd (login "bo@example.com" "pw"
                           (always 200 (Some (VDict full_login))) fresh))
                   (mkResponse 200 (Some (VDict full_login)))).
    { exists (login_request "bo@example.com" "pw" (self fresh)).
      split; reflexivity. }
    apply (proj2 (login_error_or_success _ _ _ _ _ Ha)) with (d := full_login) (u := full_user);
      try reflexivity.
    unfold error_status. cbn. lia.
Defined.

(** C2, as stated, fails: the server answers HTTP 200 with a body that has
    the token but no user; [login] raises, having replaced the token only. *)
Lemma login_200_token_only :
  let out := login "bo@example.com" "pw" (always 200 (Some (VDict token_only))) logged_in in
  fst out = Raise (KeyError "user") /\
  access_token (self (snd out)) = VStr "tok-2" /\
  org_id (self (snd out)) = VStr "org-1" /\
  user (self (snd out)) = Some sample_user.
Proof. vm_compute. auto. Qed.

(** A status outside 4xx and 5xx is let through, whatever it is. *)
Example login_on_300 :
  fst (login "bo@example.com" "pw" (always 300 (Some (VDict full_login))) logged_in)
  = Ok (mkUser (VStr "u-2") (VStr "bo@example.com") (VStr "Bo") (VStr "")
          (VStr "org-2") (VList [])).
Proof. vm_compute. reflexivity. Qed.

(** C9 (as amended).  The server lets [login] through (HTTP 200) with a JSON
    object that holds [access_token].  When [user] is absent, or is an object
    without [organization_id], [login] raises the key error with the access
    token replaced and the organization id and the user at their prior
    values.  When [user] has [organization_id] but lacks [id] or [email],
    [login] raises the key error with both the access token and the
    organization id replaced, and only the user at its prior value. *)
Theorem login_partial_mutation (email password : string) (e : env) (st : state)
    (resp : response) (d : gmap string value) (tok : value) :
  answered e st (snd (login email password e st)) resp ->
  ~ error_status (status_code resp) ->
  body resp = Some (VDict d) ->
  d !! "access_token" = Some tok ->
  let out := login email password e st in
  (d !! "user" = None ->
   fst out = Raise (KeyError "user") /\
   access_token (self (snd out)) = tok /\
   org_id (self (snd out)) = org_id (self st) /\
   user (self (snd out)) = user (self st)) /\
  (forall u, d !! "user" = Some (VDict u) ->
   u !! "organization_id" = None ->
   fst out = Raise (KeyError "organization_id") /\
   access_token (self (snd out)) = tok /\
   org_id (self (snd out)) = org_id (self st) /\
   user (self (snd out)) = user (self st)) /\
  (forall u org k, d !! "user" = Some (VDict u) ->
   u !! "organization_id" = Some org ->
   (k = "id" /\ u !! "id" = None \/
    k = "email" /\ is_Some (u !! "id") /\ u !! "email" = None) ->
   fst out = Raise (KeyError k) /\
   access_token (self (snd out)) = tok /\
   org_id (self (snd out)) = org /\
   user (self (snd out)) = user (self st)).
Proof.
  intros H Hs Hb Ht out. subst out. apply error_status_dec in Hs.
  login_start H. rewrite Hs, Hb. unfold getitem, get; run. rewrite Ht; run.
  split; [|split].
  - intros Hu. rewrite Hu; run. auto.
  - intros u Hu Ho. rewrite Hu; run. rewrite Ho; run. auto.
  - intros u org k Hu Ho Hk. rewrite Hu; run. rewrite Ho; run.
    destruct Hk as [[-> Hi]|[-> [[uid Hi] He]]]; rewrite Hi; run.
    + auto.
    + rewrite He; run. auto.
Qed.

Lemma login_partial_mutation_witness :
  let out := login "bo@example.com" "pw"
               (always 200 (Some (VDict login_without_id))) logged_in in
  fst out = Raise (KeyError "id") /\
  access_token (self (snd out)) = VStr "tok-2" /\
  org_id (self (snd out)) = VStr "org-2" /\
  user (self (snd out)) = Some sample_user.
Proof.
  assert (Ha : answered (always 200 (Some (VDict login_without_id))) logged_in
                 (snd (login "bo@example.com" "pw"
                         (always 200 (Some (VDict login_without_id))) logged_in))
                 (mkResponse 200 (Some (VDict login_without_id)))).
  { exists (login_request "bo@example.com" "pw" (self logged_in)).
    split; reflexivity. }
  assert (Hs : ~ error_status (status_code (mkResponse 200 (Some (VDict login_without_id))))).
  { unfold error_status. cbn. lia. }
  apply (proj2 (proj2 (login_partial_mutation _ _ _ _ _ login_without_id (VStr "tok-2")
                         Ha Hs eq_refl eq_refl)) user_without_id (VStr "org-2") "id").
  - reflexivity.
  - reflexivity.
  - left. split; reflexivity.
Defined.

(** C9, as stated, fails: the [user] object has [organization_id] and lacks
    [id]; the organization id does not keep its prior value ["org-1"]. *)
Lemma login_without_id_replaces_org :
  let out := login "bo@example.com" "pw"
               (always 200 (Some (VDict login_without_id))) logged_in in
  fst out = Raise (KeyError "id") /\
  access_token (self (snd out)) = VStr "tok-2" /\
  org_id (self logged_in) = VStr "org-1" /\
  org_id (self (snd out)) = VStr "org-2" /\
  org_id (self (snd out)) <> org_id (self logged_in).
Proof. vm_compute. repeat split; discriminate. Qed.

(** ** One request, one reply *)

(** When the request of a method was answered with [resp], the method goes
    on from that response. *)
Lemma send_answered {A} (r : request) (k : response -> M A) e st resp :
  (forall resp', silent (k resp')) ->
  answered e st (snd (bind (send r) k e st)) resp ->
  bind (send r) k e st = k resp e (logged r st).
Proof.
  intros Hk (r' & Hs & Hr). rewrite sent_after_send in Hs by exact Hk.
  apply app_one_inv in Hs. subst r'.
  unfold bind, send. rewrite Hr. reflexivity.
Qed.

Lemma send_undelivered {A} (r : request) (k : response -> M A) e st :
  (forall resp', silent (k resp')) ->
  undelivered e st (snd (bind (send r) k e st)) ->
  bind (send r) k e st = (Raise ConnectionError, logged r st).
Proof.
  intros Hk (r' & Hs & Hr). rewrite sent_after_send in Hs by exact Hk.
  apply app_one_inv in Hs. subst r'.
  unfold bind, send. rewrite Hr. reflexivity.
Qed.

Ltac readers_in H :=
  repeat first [rewrite bind_endpoint in H | rewrite bind_property in H
               | rewrite bind_get_self in H | rewrite bind_fstr in H].

(** Replaces the run of a method by its continuation after the reply that
    hypothesis [H] speaks of. *)
Ltac replied H :=
  readers_in H; readers;
  match type of H with
  | answered ?e ?st (snd (bind (send ?r) ?k ?e ?st)) ?resp =>
      let E := fresh "E" in
      assert (E : bind (send r) k e st = k resp e (logged r st))
        by (refine (send_answered r k e st resp _ H); silence);
      rewrite E; clear E
  end.

Lemma silent_make_Product p : silent (make_Product p).
Proof. unfold make_Product. silence. Qed.

Lemma silent_make_Buffer b pid : silent (make_Buffer b pid).
Proof. unfold make_Buffer. silence. Qed.

#[local] Hint Resolve silent_make_Product silent_make_Buffer : silent.

(** ** Collections *)

(** C6 (as amended).  When the server lets the call through with a body that
    is a JSON object in which the collection key is absent, [list_products]
    returns the empty list of products, and [list_purchase_orders] and
    [get_notifications] return the empty list. *)
Theorem absent_collection_gives_empty (e : env) (st : state) (resp : response)
    (d : gmap string value) :
  ~ error_status (status_code resp) ->
  body resp = Some (VDict d) ->
  (forall page page_size status,
     answered e st (snd (list_products page page_size status e st)) resp ->
     d !! "products" = None ->
     fst (list_products page page_size status e st) = Ok []) /\
  (forall status,
     answered e st (snd (list_purchase_orders status e st)) resp ->
     d !! "data" = None ->
     fst (list_purchase_orders status e st) = Ok (VList [])) /\
  (forall unread_only,
     answered e st (snd (get_notifications unread_only e st)) resp ->
     d !! "notifications" = None ->
     fst (get_notifications unread_only e st) = Ok (VList [])).
Proof.
  intros Hs Hb. apply error_status_dec in Hs. split; [|split].
  - intros page page_size status H Hk. unfold list_products in *.
    replied H. run. rewrite Hs, Hb. unfold get; run. rewrite Hk. reflexivity.
  - intros status H Hk. unfold list_purchase_orders in *.
    replied H. run. rewrite Hs, Hb. unfold get; run. rewrite Hk. reflexivity.
  - intros unread_only H Hk. unfold get_notifications in *.
    replied H. run. rewrite Hs, Hb. unfold get; run. rewrite Hk. reflexivity.
Qed.

Ltac answer := eexists; split; reflexivity.

Lemma absent_collection_gives_empty_witness :
  fst (list_products 1 20 None (always 200 (Some (VDict ∅))) fresh) = Ok [] /\
  fst (list_purchase_orders None (always 200 (Some (VDict ∅))) fresh) = Ok (VList []) /\
  fst (get_notifications false (always 200 (Some (VDict ∅))) fresh) = Ok (VList []).
Proof.
  assert (Hs : ~ error_status (status_code (mkResponse 200 (Some (VDict ∅))))).
  { unfold error_status. cbn. lia. }
  destruct (absent_collection_gives_empty (always 200 (Some (VDict ∅))) fresh
              (mkResponse 200 (Some (VDict ∅))) ∅ Hs eq_refl) as (H1 & H2 & H3).
  split; [|split].
  - apply H1; [answer | reflexivity].
  - apply H2; [answer | reflexivity].
  - apply H3; [answer | reflexivity].
Defined.

(** C6, as stated, fails: a body that is JSON but not an object (an array,
    here) has no key to be absent from, and the three calls raise an
    attribute error on it. *)
Lemma collection_calls_on_array_body :
  fst (list_products 1 20 None (always 200 (Some (VList []))) fresh)
  = Raise AttributeError /\
  fst (list_purchase_orders None (always 200 (Some (VList []))) fresh)
  = Raise AttributeError /\
  fst (get_notifications false (always 200 (Some (VList []))) fresh)
  = Raise AttributeError.
Proof. vm_compute. auto. Qed.

(** ** Records built from a response *)

Lemma make_Product_run (p : gmap string value) (i s n : value) e st :
  p !! "id" = Some i -> p !! "sku" = Some s -> p !! "name" = Some n ->
  make_Product (VDict p) e st = (Ok (product_with_defaults p i s n), st).
Proof.
  intros Hi Hs Hn. unfold make_Product, getitem, get. run.
  rewrite Hi, Hs, Hn. reflexivity.
Qed.

Lemma make_Buffer_run (b : gmap string value) (pid : value) e st :
  make_Buffer (VDict b) pid e st = (Ok (buffer_with_defaults b pid), st).
Proof. reflexivity. Qed.

Lemma mapM_make_Product_run (ps : list value) e st :
  Forall has_required_keys ps ->
  exists prods,
    mapM make_Product ps e st = (Ok prods, st) /\
    Forall2 maps_to_product ps prods.
Proof.
  induction 1 as [|v ps Hv _ IH].
  - exists []. split; [reflexivity | constructor].
  - destruct IH as (prods & Hrun & Hall).
    destruct Hv as (p & -> & [i Hi] & [s Hs] & [n Hn]).
    exists (product_with_defaults p i s n :: prods). split.
    + cbn [mapM]. unfold bind at 1. rewrite (make_Product_run p i s n) by assumption.
      unfold bind at 1. rewrite Hrun. reflexivity.
    + constructor; [|exact Hall]. exists p, i, s, n. auto.
Qed.

Lemma get_buffer_replied e st resp (d b : gmap string value) product_id :
  ~ error_status (status_code resp) ->
  body resp = Some (VDict d) ->
  default (VDict ∅) (d !! "buffer") = VDict b ->
  answered e st (snd (get_buffer product_id e st)) resp ->
  fst (get_buffer product_id e st) = Ok (buffer_with_defaults b product_id).
Proof.
  intros Hs Hb Hbuf H. apply error_status_dec in Hs. unfold get_buffer in *.
  replied H. run. rewrite Hs, Hb. unfold get at 1; run. rewrite Hbuf.
  reflexivity.
Qed.

Lemma calculate_buffer_replied e st resp (d b : gmap string value) product_id :
  ~ error_status (status_code resp) ->
  body resp = Some (VDict d) ->
  default (VDict ∅) (d !! "buffer") = VDict b ->
  answered e st (snd (calculate_buffer product_id e st)) resp ->
  fst (calculate_buffer product_id e st) = Ok (buffer_with_defaults b product_id).
Proof.
  intros Hs Hb Hbuf H. apply error_status_dec in Hs. unfold calculate_buffer in *.
  replied H. run. rewrite Hs, Hb. unfold get at 1; run. rewrite Hbuf.
  reflexivity.
Qed.

(** C4.  Whenever the server lets the call through, a field that is absent
    from the JSON object takes its default in the record returned: the empty
    string for a product's [category] and [unit_of_measure], ["active"] for
    its [status] (in [get_product], [create_product] and for every item of
    [list_products]); [0] for a buffer's [net_flow_position],
    [buffer_penetration], [red_zone], [yellow_zone] and [green_zone], and
    ["unknown"] for its [zone] (in [get_buffer] and [calculate_buffer], the
    ["buffer"] sub-object being absent or an object). *)
Theorem absent_fields_take_defaults (e : env) (st : state) (resp : response)
    (d : gmap string value) :
  ~ error_status (status_code resp) ->
  body resp = Some (VDict d) ->
  (forall i s n, d !! "id" = Some i -> d !! "sku" = Some s -> d !! "name" = Some n ->
     (forall product_id,
        answered e st (snd (get_product product_id e st)) resp ->
        fst (get_product product_id e st) = Ok (product_with_defaults d i s n)) /\
     (forall sku name category unit_of_measure,
        answered e st (snd (create_product sku name category unit_of_measure e st)) resp ->
        fst (create_product sku name category unit_of_measure e st)
        = Ok (product_with_defaults d i s n))) /\
  (forall ps page page_size status,
     d !! "products" = Some (VList ps) ->
     Forall has_required_keys ps ->
     answered e st (snd (list_products page page_size status e st)) resp ->
     exists prods,
       fst (list_products page page_size status e st) = Ok prods /\
       Forall2 maps_to_product ps prods) /\
  (forall b product_id,
     default (VDict ∅) (d !! "buffer") = VDict b ->
     (answered e st (snd (get_buffer product_id e st)) resp ->
      fst (get_buffer product_id e st) = Ok (buffer_with_defaults b product_id)) /\
     (answered e st (snd (calculate_buffer product_id e st)) resp ->
      fst (calculate_buffer product_id e st) = Ok (buffer_with_defaults b product_id))).
Proof.
  intros Hs' Hb. pose proof (proj2 (error_status_dec _) Hs') as Hs.
  split; [|split].
  - intros i s n Hi Hk Hn. split.
    + intros product_id H. unfold get_product in *.
      replied H. run. rewrite Hs, Hb.
      rewrite (make_Product_run d i s n) by assumption. reflexivity.
    + intros sku name category unit_of_measure H. unfold create_product in *.
      replied H. run. rewrite Hs, Hb.
      rewrite (make_Product_run d i s n) by assumption. reflexivity.
  - intros ps page page_size status Hp Hall H. unfold list_products in *.
    replied H. run. rewrite Hs, Hb. unfold get; run. rewrite Hp.
    cbv beta iota zeta delta [ret bind default from_option id iterate].
    match goal with
    | |- context [mapM make_Product ps e ?s] =>
        destruct (mapM_make_Product_run ps e s Hall) as (prods & Hrun & Hrel);
        exists prods; split; [rewrite Hrun; reflexivity | exact Hrel]
    end.
  - intros b product_id Hbuf. split; intros H.
    + exact (get_buffer_replied e st resp d b product_id Hs' Hb Hbuf H).
    + exact (calculate_buffer_replied e st resp d b product_id Hs' Hb Hbuf H).
Qed.

Lemma absent_fields_take_defaults_witness :
  let prod := mkProduct (VStr "p-1") (VStr "SKU-1") (VStr "Bolt")
                (VStr "") (VStr "") (VStr "active") in
  let buf := mkBuffer (VStr "p-1") (VStr "unknown") (VInt 0) (VInt 0) (VInt 0)
               (VInt 0) (VInt 0) in
  (fst (get_product (VStr "p-1") (always 200 (Some (VDict bare_product))) fresh) = Ok prod /\
   fst (create_product "SKU-1" "Bolt" "" "units"
          (always 200 (Some (VDict bare_product))) fresh) = Ok prod) /\
  (exists prods,
     fst (list_products 1 20 None (always 200 (Some (VDict one_product))) fresh) = Ok prods /\
     Forall2 maps_to_product [VDict bare_product] prods) /\
  (fst (get_buffer (VStr "p-1") (always 200 (Some (VDict ∅))) fresh) = Ok buf /\
   fst (calculate_buffer (VStr "p-1") (always 200 (Some (VDict ∅))) fresh) = Ok buf).
Proof.
  assert (Hs : forall b, ~ error_status (status_code (mkResponse 200 b))).
  { intros b. unfold error_status. cbn. lia. }
  intros prod buf. split; [|split].
  - destruct (absent_fields_take_defaults (always 200 (Some (VDict bare_product))) fresh
                (mkResponse 200 (Some (VDict bare_product))) bare_product
                (Hs _) eq_refl) as (H & _ & _).
    destruct (H (VStr "p-1") (VStr "SKU-1") (VStr "Bolt") eq_refl eq_refl eq_refl)
      as (H1 & H2).
    split; [apply H1 | apply H2]; answer.
  - destruct (absent_fields_take_defaults (always 200 (Some (VDict one_product))) fresh
                (mkResponse 200 (Some (VDict one_product))) one_product
                (Hs _) eq_refl) as (_ & H & _).
    apply H.
    + reflexivity.
    + constructor; [|constructor]. exists bare_product.
      repeat split; eexists; reflexivity.
    + answer.
  - destruct (absent_fields_take_defaults (always 200 (Some (VDict ∅))) fresh
                (mkResponse 200 (Some (VDict ∅))) ∅ (Hs _) eq_refl) as (_ & _ & H).
    destruct (H ∅ (VStr "p-1") eq_refl) as (H1 & H2).
    split; [apply H1 | apply H2]; answer.
Defined.

(** C10.  Whenever the server lets the call through with a JSON object whose
    ["buffer"] sub-object is absent, or is an object without [product_id],
    the buffer [get_buffer] and [calculate_buffer] return carries the product
    id that was passed to the call. *)
Theorem buffer_product_id_falls_back_to_argument (e : env) (st : state)
    (resp : response) (d : gmap string value) (product_id : value) :
  ~ error_status (status_code resp) ->
  body resp = Some (VDict d) ->
  d !! "buffer" = None \/
  (exists b, d !! "buffer" = Some (VDict b) /\ b !! "product_id" = None) ->
  (answered e st (snd (get_buffer product_id e st)) resp ->
   exists buf, fst (get_buffer product_id e st) = Ok buf /\
               b_product_id buf = product_id) /\
  (answered e st (snd (calculate_buffer product_id e st)) resp ->
   exists buf, fst (calculate_buffer product_id e st) = Ok buf /\
               b_product_id buf = product_id).
Proof.
  intros Hs Hb Hbuf.
  assert (exists b, default (VDict ∅) (d !! "buffer") = VDict b
                    /\ b !! "product_id" = None) as (b & Hd & Hp).
  { destruct Hbuf as [Hn|(b & Hd & Hp)].
    - exists ∅. rewrite Hn. split; [reflexivity | apply lookup_empty].
    - exists b. rewrite Hd. split; [reflexivity | exact Hp]. }
  split; intros Ha; exists (buffer_with_defaults b product_id).
  - split; [exact (get_buffer_replied e st resp d b product_id Hs Hb Hd Ha)|].
    unfold buffer_with_defaults. cbn. rewrite Hp. reflexivity.
  - split; [exact (calculate_buffer_replied e st resp d b product_id Hs Hb Hd Ha)|].
    unfold buffer_with_defaults. cbn. rewrite Hp. reflexivity.
Qed.

Lemma buffer_product_id_falls_back_to_argument_witness :
  (exists buf, fst (get_buffer (VStr "p-1") (always 200 (Some (VDict ∅))) fresh) = Ok buf /\
               b_product_id buf = VStr "p-1") /\
  (exists buf, fst (calculate_buffer (VStr "p-1") (always 200 (Some (VDict ∅))) fresh) = Ok buf /\
               b_product_id buf = VStr "p-1").
Proof.
  assert (Hs : ~ error_status (status_code (mkResponse 200 (Some (VDict ∅))))).
  { unfold error_status. cbn. lia. }
  destruct (buffer_product_id_falls_back_to_argument
              (always 200 (Some (VDict ∅))) fresh (mkResponse 200 (Some (VDict ∅)))
              ∅ (VStr "p-1") Hs eq_refl (or_introl eq_refl)) as (H1 & H2).
  split; [apply H1 | apply H2]; answer.
Defined.

(** ** Requests *)

Lemma requests_of_one {A} (c : M A) e st r :
  sent (snd (c e st)) = sent st ++ [r] -> requests_of c e st = [r].
Proof.
  intros H. unfold requests_of. rewrite H.
  rewrite drop_app_length. reflexivity.
Qed.

Lemma requests_of_none {A} (c : M A) e st :
  sent (snd (c e st)) = sent st -> requests_of c e st = [].
Proof.
  intros H. unfold requests_of. rewrite H. apply drop_all.
Qed.

Lemma sent_discard {A} (c : M A) e st :
  sent (snd (bind c (fun _ => ret tt) e st)) = sent (snd (c e st)).
Proof. unfold bind. destruct (c e st) as [[a|x] st1]; reflexivity. Qed.

Lemma fst_discard_raise {A} (c : M A) e st x :
  fst (c e st) = Raise x -> fst (bind c (fun _ => ret tt) e st) = Raise x.
Proof.
  unfold bind. destruct (c e st) as [[a|y] st1]; cbn; intros H;
    [discriminate | congruence].
Qed.

(** C7.  [get_notifications] sends the flag as the lowercase text of the
    boolean: ["true"] for [True], ["false"] for [False]. *)
Theorem get_notifications_flag_text (unread_only : bool) (e : env) (st : state) :
  exists r,
    requests_of (get_notifications unread_only) e st = [r] /\
    req_method r = GET /\
    req_url r = base_url (self st) +:+ ":8086/api/v1/notifications" /\
    req_params r
    = Some {[ "unread_only" := VStr (if unread_only then "true" else "false") ]}.
Proof.
  eexists. split.
  - apply requests_of_one. unfold get_notifications. readers.
    apply sent_after_send. silence.
  - destruct unread_only; repeat split.
Qed.

(** ** Headers *)

Lemma headers_lookup (e : env) (c : GIIAClient) :
  _headers e c !! "Content-Type" = Some (VStr "application/json") /\
  _headers e c !! "Authorization"
  = (if truthy (access_token c)
     then Some (VStr ("Bearer " +:+ py_str e (access_token c))) else None) /\
  _headers e c !! "X-Organization-ID"
  = (if truthy (org_id c) then Some (org_id c) else None).
Proof.
  unfold _headers.
  destruct (truthy (access_token c)), (truthy (org_id c));
    repeat split; simplify_map_eq; reflexivity.
Qed.

Lemma carries_headers (e : env) (c : GIIAClient) m url params js :
  carries_session_headers e c (mkRequest m url (Some (_headers e c)) params js).
Proof. exists (_headers e c). split; [reflexivity | apply headers_lookup]. Qed.

Lemma add_days_raises t n x : add_days t n = Raise x -> x = OverflowError.
Proof.
  unfold add_days. destruct (_ <? _); [congruence|].
  destruct (_ && _); [|congruence].
  destruct (_ord2ymd _) as [[y m] d]. discriminate.
Qed.

(** [create_purchase_order] reads the clock twice, then either fails on the
    date arithmetic before anything is sent, or sends one request. *)
Lemma create_purchase_order_run po sup items n e st :
  create_purchase_order po sup items n e st =
  let today := clock e (clock_reads st) in
  let today' := clock e (S (clock_reads st)) in
  let st2 := mkState (self st) (sent st) (S (S (clock_reads st))) (stdout st) in
  match add_days today' n with
  | Raise x => (Raise x, st2)
  | Ok arrival =>
      bind (send (purchase_order_request e (self st) po sup items
                    (strftime_date (fmt_Y e) today)
                    (strftime_date (fmt_Y e) arrival)))
           (fun response => raise_for_status response ;; json response) e st2
  end.
Proof.
  unfold create_purchase_order. readers.
  unfold bind at 1, datetime_now at 1. unfold bind at 1, strftime_ymd at 1.
  unfold bind at 1, datetime_now at 1. cbn [clock_reads self sent stdout].
  unfold bind at 1, lift at 1. cbv zeta.
  destruct (add_days _ n) as [arrival|x]; reflexivity.
Qed.

Lemma create_purchase_order_sent po sup items n e st :
  (exists url js,
     sent (snd (create_purchase_order po sup items n e st))
     = sent st ++ [mkRequest POST url (Some (_headers e (self st))) None js]) \/
  (sent (snd (create_purchase_order po sup items n e st)) = sent st /\
   fst (create_purchase_order po sup items n e st) = Raise OverflowError).
Proof.
  rewrite create_purchase_order_run. cbv zeta.
  destruct (add_days _ n) as [arrival|x] eqn:Ha.
  - left. eexists _, _. rewrite sent_after_send by silence. reflexivity.
  - right. apply add_days_raises in Ha. subst x. split; reflexivity.
Qed.

Lemma add_days_in_range (t : datetime) (n : Z) :
  Z.abs n <= 999999999 -> 1 <= toordinal t + n <= _MAXORDINAL ->
  exists t', add_days t n = Ok t'.
Proof.
  intros Ha Hr. unfold add_days, _MAXORDINAL in *.
  replace (999999999 <? Z.abs n) with false by (symmetry; apply Z.ltb_ge; lia).
  replace ((0 <? toordinal t + n) && (toordinal t + n <=? 3652059)) with true
    by (symmetry; apply andb_true_iff; rewrite Z.ltb_lt, Z.leb_le; lia).
  destruct (_ord2ymd _) as [[y m] d]. eexists. reflexivity.
Qed.

Lemma add_days_out_of_range (t : datetime) (n : Z) :
  ~ (Z.abs n <= 999999999 /\ 1 <= toordinal t + n <= _MAXORDINAL) ->
  add_days t n = Raise OverflowError.
Proof.
  intros Hn. unfold add_days, _MAXORDINAL in *.
  destruct (999999999 <? Z.abs n) eqn:Ha; [reflexivity|]. apply Z.ltb_ge in Ha.
  destruct ((0 <? toordinal t + n) && (toordinal t + n <=? 3652059)) eqn:Hr;
    [|reflexivity].
  apply andb_true_iff in Hr as [H1 H2]. apply Z.ltb_lt in H1. apply Z.leb_le in H2.
  exfalso. apply Hn. lia.
Qed.

(** Each call sends one request, with the headers of the session, unless its
    date arithmetic fails. *)
Lemma perform_sends (c : call) (e : env) (st : state) :
  date_in_range e st c ->
  exists r, requests_of (perform c) e st = [r] /\
            carries_session_headers e (self st) r.
Proof.
  intros Hd.
  destruct c; cbn [perform];
    try (eexists; split;
         [ apply requests_of_one; rewrite ?sent_discard;
           first [ unfold logout | unfold list_products | unfold get_product
                 | unfold create_product | unfold get_buffer | unfold calculate_buffer
                 | unfold list_purchase_orders | unfold get_kpi_snapshot
                 | unfold get_notifications ];
           readers; apply sent_after_send; silence
         | apply carries_headers ]).
  destruct Hd as (Ha & Hr).
  destruct (add_days_in_range _ _ Ha Hr) as (t' & Ht).
  eexists. split.
  - apply requests_of_one. rewrite sent_discard, create_purchase_order_run.
    cbv zeta. rewrite Ht. rewrite sent_after_send by silence. reflexivity.
  - apply carries_headers.
Qed.

Lemma perform_overflows (c : call) (e : env) (st : state) :
  ~ date_in_range e st c ->
  requests_of (perform c) e st = [] /\ fst (perform c e st) = Raise OverflowError.
Proof.
  intros Hd. destruct c; cbn [date_in_range] in Hd; try (exfalso; exact (Hd I)).
  apply add_days_out_of_range in Hd. cbn [perform]. split.
  - apply requests_of_none. rewrite sent_discard, create_purchase_order_run.
    cbv zeta. rewrite Hd. reflexivity.
  - apply fst_discard_raise. rewrite create_purchase_order_run.
    cbv zeta. rewrite Hd. reflexivity.
Qed.

(** C3 (as amended).  Every call other than [login] and [refresh_token]
    sends its one request with the headers of the session: [Authorization:
    Bearer token] exactly when the stored token is truthy (neither [None] nor
    empty), [X-Organization-ID] exactly when the stored organization id is
    truthy.  (Only a purchase order whose date arithmetic overflows sends
    nothing.)  In particular such a call on a client that holds no token and
    no organization id, as a client just built does, sends its request
    without the two headers, and such a call after a [login] that left a
    non-empty token and organization id sends its request with both. *)
Theorem session_headers_on_calls (c : call) (e : env) (st : state) :
  (date_in_range e st c ->
   exists r, requests_of (perform c) e st = [r] /\
             carries_session_headers e (self st) r) /\
  (~ date_in_range e st c ->
   requests_of (perform c) e st = [] /\ fst (perform c e st) = Raise OverflowError) /\
  (date_in_range e st c ->
   truthy (access_token (self st)) = false ->
   truthy (org_id (self st)) = false ->
   exists r h, requests_of (perform c) e st = [r] /\
               req_headers r = Some h /\
               h !! "Content-Type" = Some (VStr "application/json") /\
               h !! "Authorization" = None /\
               h !! "X-Organization-ID" = None) /\
  (forall email password e0 st0 u,
     login email password e0 st0 = (Ok u, st) ->
     truthy (access_token (self st)) = true ->
     truthy (org_id (self st)) = true ->
     date_in_range e st c ->
     exists r h, requests_of (perform c) e st = [r] /\
                 req_headers r = Some h /\
                 h !! "Authorization"
                 = Some (VStr ("Bearer " +:+ py_str e (access_token (self st)))) /\
                 h !! "X-Organization-ID" = Some (org_id (self st))).
Proof.
  split; [apply perform_sends|]. split; [apply perform_overflows|]. split.
  - intros Hd Ht Ho.
    destruct (perform_sends c e st Hd) as (r & Hr & h & Hh & Hc & Ha & Hx).
    rewrite Ht in Ha. rewrite Ho in Hx. exists r, h. auto.
  - intros email password e0 st0 u _ Ht Ho Hd.
    destruct (perform_sends c e st Hd) as (r & Hr & h & Hh & Hc & Ha & Hx).
    rewrite Ht in Ha. rewrite Ho in Hx. exists r, h. auto.
Qed.

Lemma session_headers_on_calls_witness :
  (exists r h, requests_of (perform GetKpiSnapshot) offline fresh = [r] /\
               req_headers r = Some h /\
               h !! "Content-Type" = Some (VStr "application/json") /\
               h !! "Authorization" = None /\
               h !! "X-Organization-ID" = None) /\
  (let st := snd (login "bo@example.com" "pw"
                    (always 200 (Some (VDict full_login))) fresh) in
   exists r h, requests_of (perform GetKpiSnapshot) offline st = [r] /\
               req_headers r = Some h /\
               h !! "Authorization" = Some (VStr "Bearer tok-2") /\
               h !! "X-Organization-ID" = Some (VStr "org-2")) /\
  (requests_of (perform (CreatePurchaseOrder "PO-1" "sup-1" (VList []) 3000000))
     offline fresh = [] /\
   fst (perform (CreatePurchaseOrder "PO-1" "sup-1" (VList []) 3000000) offline fresh)
   = Raise OverflowError).
Proof.
  split; [|split].
  - destruct (session_headers_on_calls GetKpiSnapshot offline fresh)
      as (_ & _ & H & _).
    exact (H I eq_refl eq_refl).
  - destruct (session_headers_on_calls GetKpiSnapshot offline
                (snd (login "bo@example.com" "pw"
                        (always 200 (Some (VDict full_login))) fresh)))
      as (_ & _ & _ & H).
    exact (H "bo@example.com" "pw" (always 200 (Some (VDict full_login))) fresh
             (mkUser (VStr "u-2") (VStr "bo@example.com") (VStr "Bo") (VStr "")
                (VStr "org-2") (VList []))
             eq_refl eq_refl eq_refl I).
  - destruct (session_headers_on_calls
                (CreatePurchaseOrder "PO-1" "sup-1" (VList []) 3000000) offline fresh)
      as (_ & H & _).
    apply H. intros (_ & _ & Hhi). vm_compute in Hhi. apply Hhi. reflexivity.
Defined.

(** C3, as stated, fails three times.  [refresh_token], called with a token
    and an organization id in the session, sends a request without any
    header of the session.  After a [login] that succeeded with an empty
    token and an empty organization id, a call sends neither header.  And
    before any [login], a call that follows a [refresh_token] carries the
    token the refresh stored. *)
Lemma refresh_token_sends_no_session_headers :
  (truthy (access_token (self logged_in)) = true /\
   truthy (org_id (self logged_in)) = true /\
   requests_of refresh_token (always 200 (Some (VDict token_only))) logged_in
   = [mkRequest POST "http://localhost:8081/api/v1/auth/refresh" None None None]) /\
  (let out := login "cy@example.com" "pw"
                (always 200 (Some (VDict empty_credentials))) fresh in
   fst out = Ok (mkUser (VStr "u-3") (VStr "cy@example.com") (VStr "") (VStr "")
                   (VStr "") (VList [])) /\
   exists r h, requests_of get_kpi_snapshot offline (snd out) = [r] /\
               req_headers r = Some h /\
               h !! "Authorization" = None /\
               h !! "X-Organization-ID" = None) /\
  (let out := refresh_token (always 200 (Some (VDict token_only))) fresh in
   fst out = Ok (VStr "tok-2") /\
   user (self (snd out)) = None /\
   exists r h, requests_of get_kpi_snapshot offline (snd out) = [r] /\
               req_headers r = Some h /\
               h !! "Authorization" = Some (VStr "Bearer tok-2")).
Proof.
  split; [|split].
  - vm_compute. auto.
  - split; [vm_compute; reflexivity|].
    eexists _, _. repeat split; vm_compute; reflexivity.
  - split; [vm_compute; reflexivity|]. split; [vm_compute; reflexivity|].
    eexists _, _. repeat split; vm_compute; reflexivity.
Qed.

(** ** Dates *)

Lemma all_from_spec (P : Z -> bool) (fuel : nat) (z : Z) :
  all_from fuel z P = true ->
  forall i, z <= i < z + Z.of_nat fuel -> P i = true.
Proof.
  revert z. induction fuel as [|fuel IH]; intros z H i Hi.
  - lia.
  - cbn [all_from] in H. apply andb_true_iff in H as [Hz Hrest].
    destruct (Z.eq_dec i z) as [->|Hne]; [exact Hz|].
    apply (IH (z + 1) Hrest). lia.
Qed.

Lemma cycle_days_checked : all_from (Z.to_nat _DI400Y) 0 cycle_day_ok = true.
Proof. vm_compute. reflexivity. Qed.

Lemma cycle_day_ok_holds n : 0 <= n < _DI400Y -> cycle_day_ok n = true.
Proof.
  intros H. apply (all_from_spec _ _ _ cycle_days_checked).
  rewrite Z2Nat.id by (unfold _DI400Y; lia). lia.
Qed.

Lemma ord2ymd_cycle_shift (year0 n : Z) :
  _ord2ymd_cycle year0 n
  = let '(y, m, d) := _ord2ymd_cycle 1 n in (y + (year0 - 1), m, d).
Proof.
  unfold _ord2ymd_cycle. cbv zeta.
  destruct (_ || _); [f_equal; f_equal; lia|].
  destruct (_ <? _); f_equal; f_equal; lia.
Qed.

Lemma is_leap_shift (y q : Z) : _is_leap (y + 400 * q) = _is_leap y.
Proof.
  unfold _is_leap.
  replace ((y + 400 * q) mod 4) with (y mod 4)
    by (replace (y + 400 * q) with (y + (100 * q) * 4) by lia;
        symmetry; apply Z_mod_plus_full).
  replace ((y + 400 * q) mod 100) with (y mod 100)
    by (replace (y + 400 * q) with (y + (4 * q) * 100) by lia;
        symmetry; apply Z_mod_plus_full).
  replace ((y + 400 * q) mod 400) with (y mod 400)
    by (replace (y + 400 * q) with (y + q * 400) by lia;
        symmetry; apply Z_mod_plus_full).
  reflexivity.
Qed.

Lemma days_before_year_shift (y q : Z) :
  _days_before_year (y + 400 * q) = _days_before_year y + _DI400Y * q.
Proof.
  unfold _days_before_year, _DI400Y. cbv zeta.
  replace (y + 400 * q - 1) with (y - 1 + 400 * q) by lia.
  replace ((y - 1 + 400 * q) / 4) with ((y - 1) / 4 + 100 * q)
    by (replace (y - 1 + 400 * q) with (y - 1 + (100 * q) * 4) by lia;
        symmetry; apply Z_div_plus_full; lia).
  replace ((y - 1 + 400 * q) / 100) with ((y - 1) / 100 + 4 * q)
    by (replace (y - 1 + 400 * q) with (y - 1 + (4 * q) * 100) by lia;
        symmetry; apply Z_div_plus_full; lia).
  replace ((y - 1 + 400 * q) / 400) with ((y - 1) / 400 + q)
    by (replace (y - 1 + 400 * q) with (y - 1 + q * 400) by lia;
        symmetry; apply Z_div_plus_full; lia).
  lia.
Qed.

Lemma ymd2ord_shift (y m d q : Z) :
  _ymd2ord (y + 400 * q) m d = _ymd2ord y m d + _DI400Y * q.
Proof.
  unfold _ymd2ord, _days_before_month.
  rewrite is_leap_shift, days_before_year_shift. lia.
Qed.

Lemma days_in_month_shift (y m q : Z) :
  _days_in_month (y + 400 * q) m = _days_in_month y m.
Proof. unfold _days_in_month. rewrite is_leap_shift. reflexivity. Qed.

(** [_ord2ymd] gives a date of the calendar, of which [_ymd2ord] gives the
    ordinal back. *)
Lemma ord2ymd_correct (k : Z) :
  1 <= k <= _MAXORDINAL ->
  let '(y, m, d) := _ord2ymd k in
  1 <= y <= 9999 /\ 1 <= m <= 12 /\ 1 <= d <= _days_in_month y m /\
  _ymd2ord y m d = k /\
  (_ymd2ord 1000 1 1 <= k -> 1000 <= y).
Proof.
  intros Hk. unfold _MAXORDINAL in Hk. unfold _ord2ymd. cbv zeta.
  set (q := (k - 1) / _DI400Y). set (n := (k - 1) mod _DI400Y).
  assert (Hn : 0 <= n < _DI400Y) by (apply Z.mod_pos_bound; reflexivity).
  assert (Hq : k - 1 = _DI400Y * q + n) by (apply Z.div_mod; discriminate).
  assert (Hq0 : 0 <= q <= 24) by (unfold _DI400Y in *; lia).
  rewrite ord2ymd_cycle_shift.
  pose proof (cycle_day_ok_holds n Hn) as Hc. unfold cycle_day_ok in Hc.
  destruct (_ord2ymd_cycle 1 n) as [[y m] d].
  repeat (apply andb_true_iff in Hc as [Hc ?]).
  replace (y + (q * 400 + 1 - 1)) with (y + 400 * q) by lia.
  rewrite days_in_month_shift, ymd2ord_shift.
  change (_ymd2ord 1000 1 1) with 364878.
  unfold _DI400Y in *.
  repeat match goal with
         | H : (_ <=? _) = true |- _ => apply Z.leb_le in H
         | H : (_ =? _) = true |- _ => apply Z.eqb_eq in H
         | H : (_ || _) = true |- _ => apply orb_true_iff in H
         | H : (_ <? _) = true \/ _ |- _ => rewrite Z.ltb_lt in H
         | H : _ \/ (_ <=? _) = true |- _ => rewrite Z.leb_le in H
         end.
  lia.
Qed.

Lemma digit_val_digit (d : Z) : 0 <= d <= 9 -> digit_val (digit d) = Some d.
Proof.
  intros H.
  assert (d = 0 \/ d = 1 \/ d = 2 \/ d = 3 \/ d = 4 \/ d = 5 \/ d = 6 \/ d = 7
          \/ d = 8 \/ d = 9) as Hd by lia.
  repeat (destruct Hd as [->|Hd]; [reflexivity|]). subst d. reflexivity.
Qed.

(** The text [strftime] gives reads back as the date it was made from. *)
Lemma parse_date_strftime (y m d : Z) :
  0 <= y <= 9999 -> 0 <= m <= 99 -> 0 <= d <= 99 ->
  parse_date (pad4 y +:+ "-" +:+ pad2 m +:+ "-" +:+ pad2 d) = Some (y, m, d).
Proof.
  intros Hy Hm Hd. unfold pad4, pad2, parse_date.
  cbv beta iota zeta delta [String.append].
  rewrite !digit_val_digit by (Z.to_euclidean_division_equations; lia).
  do 3 f_equal; Z.to_euclidean_division_equations; lia.
Qed.

(** Evaluates the lookups in the month tables and the tests on months. *)
Ltac tables :=
  repeat match goal with
         | |- context [_DAYS_BEFORE_MONTH ?k] =>
             let v := eval vm_compute in (_DAYS_BEFORE_MONTH k) in
             change (_DAYS_BEFORE_MONTH k) with v
         | |- context [_DAYS_IN_MONTH ?k] =>
             let v := eval vm_compute in (_DAYS_IN_MONTH k) in
             change (_DAYS_IN_MONTH k) with v
         | |- context [Z.ltb 2 ?k] =>
             let v := eval vm_compute in (Z.ltb 2 k) in
             change (Z.ltb 2 k) with v
         | |- context [Z.eqb ?k 2] =>
             let v := eval vm_compute in (Z.eqb k 2) in
             change (Z.eqb k 2) with v
         end;
  cbv beta iota delta [andb].

Lemma days_before_month_bounds (y m : Z) :
  1 <= m <= 12 -> 0 <= _days_before_month y m <= 335.
Proof.
  intros H. unfold _days_before_month.
  assert (m = 1 \/ m = 2 \/ m = 3 \/ m = 4 \/ m = 5 \/ m = 6 \/ m = 7 \/ m = 8
          \/ m = 9 \/ m = 10 \/ m = 11 \/ m = 12) as Hm by lia.
  repeat (destruct Hm as [->|Hm]; [destruct (_is_leap y); tables; lia|]).
  subst m. destruct (_is_leap y); tables; lia.
Qed.

Lemma days_in_month_bounds (y m : Z) :
  1 <= m <= 12 -> 28 <= _days_in_month y m <= 31.
Proof.
  intros H. unfold _days_in_month.
  assert (m = 1 \/ m = 2 \/ m = 3 \/ m = 4 \/ m = 5 \/ m = 6 \/ m = 7 \/ m = 8
          \/ m = 9 \/ m = 10 \/ m = 11 \/ m = 12) as Hm by lia.
  repeat (destruct Hm as [->|Hm]; [destruct (_is_leap y); tables; lia|]).
  subst m. destruct (_is_leap y); tables; lia.
Qed.

Lemma toordinal_bounds (t : datetime) :
  valid_datetime t -> 1 <= toordinal t <= 4000000.
Proof.
  intros (Hy & Hm & Hd & _). unfold toordinal, _ymd2ord.
  pose proof (days_before_month_bounds (year t) (month t) Hm).
  pose proof (days_in_month_bounds (year t) (month t) Hm).
  unfold _days_before_year. cbv zeta.
  Z.to_euclidean_division_equations. lia.
Qed.

Lemma parse_date_strftime_date (e : env) (t : datetime) :
  1000 <= year t <= 9999 -> 1 <= month t <= 12 -> 1 <= day t <= 31 ->
  parse_date (strftime_date (fmt_Y e) t) = Some (year t, month t, day t).
Proof.
  intros Hy Hm Hd. unfold strftime_date, fmt_Y.
  replace (1000 <=? year t) with true by (symmetry; apply Z.leb_le; lia).
  apply parse_date_strftime; lia.
Qed.

(** C5 (as amended).  When the two readings of the clock that
    [create_purchase_order] makes fall on the same day [today], of a year
    from 1000 on, and [today + expected_days] is a date of the years 1000 to
    9999, the request carries [order_date], the [YYYY-MM-DD] text of
    [today], and [expected_arrival_date], the [YYYY-MM-DD] text of the date
    exactly [expected_days] days after it. *)
Theorem purchase_order_dates (po_number supplier_id : string) (line_items : value)
    (expected_days : Z) (e : env) (st : state) :
  let today := clock e (clock_reads st) in
  let today' := clock e (S (clock_reads st)) in
  valid_datetime today ->
  1000 <= year today ->
  (year today', month today', day today') = (year today, month today, day today) ->
  _ymd2ord 1000 1 1 <= toordinal today + expected_days <= _MAXORDINAL ->
  exists order_date expected_arrival_date y m d,
    requests_of (create_purchase_order po_number supplier_id line_items expected_days) e st
    = [purchase_order_request e (self st) po_number supplier_id line_items
         order_date expected_arrival_date] /\
    parse_date order_date = Some (year today, month today, day today) /\
    parse_date expected_arrival_date = Some (y, m, d) /\
    1 <= m <= 12 /\ 1 <= d <= _days_in_month y m /\
    _ymd2ord y m d = toordinal today + expected_days.
Proof.
  intros today today' Hv Hy Hsame Hr.
  pose proof (toordinal_bounds today Hv) as Ht.
  change (_ymd2ord 1000 1 1) with 364878 in *. unfold _MAXORDINAL in Hr.
  assert (Ht' : toordinal today' = toordinal today).
  { unfold toordinal. injection Hsame as -> -> ->. reflexivity. }
  pose proof (ord2ymd_correct (toordinal today + expected_days)) as Ho.
  unfold _MAXORDINAL in Ho. specialize (Ho ltac:(lia)).
  assert (Ha : exists y m d,
             add_days today' expected_days
             = Ok (mkDatetime y m d (hour today') (minute today') (second today')
                     (microsecond today'))
             /\ (1000 <= y <= 9999) /\ 1 <= m <= 12 /\ 1 <= d <= _days_in_month y m
             /\ _ymd2ord y m d = toordinal today + expected_days).
  { unfold add_days. rewrite Ht'.
    replace (999999999 <? Z.abs expected_days) with false
      by (symmetry; apply Z.ltb_ge; lia).
    replace ((0 <? toordinal today + expected_days)
             && (toordinal today + expected_days <=? _MAXORDINAL)) with true
      by (symmetry; apply andb_true_iff; unfold _MAXORDINAL;
          rewrite Z.ltb_lt, Z.leb_le; lia).
    destruct (_ord2ymd (toordinal today + expected_days)) as [[y m] d].
    exists y, m, d. change (_ymd2ord 1000 1 1) with 364878 in Ho.
    split; [reflexivity|]. intuition lia. }
  destruct Ha as (y & m & d & Ha & Hy' & Hm & Hd & Hord).
  exists (strftime_date (fmt_Y e) today),
         (strftime_date (fmt_Y e)
            (mkDatetime y m d (hour today') (minute today') (second today')
               (microsecond today'))), y, m, d.
  split; [|split; [|split]].
  - apply requests_of_one. rewrite create_purchase_order_run. cbv zeta.
    fold today'. rewrite Ha. rewrite sent_after_send by silence. reflexivity.
  - destruct Hv as (Hy1 & Hm1 & Hd1 & _).
    pose proof (days_in_month_bounds (year today) (month today) Hm1).
    apply parse_date_strftime_date; lia.
  - pose proof (days_in_month_bounds y m Hm).
    apply (parse_date_strftime_date e (mkDatetime y m d _ _ _ _)); cbn; lia.
  - auto.
Qed.

Lemma purchase_order_dates_witness :
  exists order_date expected_arrival_date y m d,
    requests_of (create_purchase_order "PO-1" "sup-1" (VList []) 14) (always 201 None) fresh
    = [purchase_order_request (always 201 None) (self fresh) "PO-1" "sup-1" (VList [])
         order_date expected_arrival_date] /\
    parse_date order_date = Some (2026, 11, 4) /\
    parse_date expected_arrival_date = Some (y, m, d) /\
    1 <= m <= 12 /\ 1 <= d <= _days_in_month y m /\
    _ymd2ord y m d = _ymd2ord 2026 11 4 + 14.
Proof.
  apply (purchase_order_dates "PO-1" "sup-1" (VList []) 14 (always 201 None) fresh).
  - unfold valid_datetime. repeat split; vm_compute; first [reflexivity | discriminate].
  - vm_compute. discriminate.
  - reflexivity.
  - split; vm_compute; discriminate.
Defined.

(** On 2026-11-04, an order with the default lead time arrives on
    2026-11-18. *)
Example purchase_order_in_14_days :
  requests_of (create_purchase_order "PO-1" "sup-1" (VList []) 14) (always 201 None) fresh
  = [purchase_order_request (always 201 None) (self fresh) "PO-1" "sup-1" (VList [])
       "2026-11-04" "2026-11-18"].
Proof. vm_compute. reflexivity. Qed.

(** C5, as stated, fails twice.  A lead time that takes the arrival past
    9999-12-31 makes the date arithmetic raise, and nothing is submitted.
    And when midnight passes between the two readings of the clock, the
    arrival date is counted from the next day: 15 days after the order date
    for a lead time of 14. *)
Lemma purchase_order_dates_off :
  (fst (create_purchase_order "PO-1" "sup-1" (VList []) 3000000 (always 201 None) fresh)
   = Raise OverflowError /\
   requests_of (create_purchase_order "PO-1" "sup-1" (VList []) 3000000)
     (always 201 None) fresh = []) /\
  (requests_of (create_purchase_order "PO-1" "sup-1" (VList []) 14) over_midnight fresh
   = [purchase_order_request over_midnight (self fresh) "PO-1" "sup-1" (VList [])
        "2026-11-04" "2026-11-19"] /\
   _ymd2ord 2026 11 19 = _ymd2ord 2026 11 4 + 15).
Proof. vm_compute. auto. Qed.

(** ** The driver *)

Lemma print_plain (t : string) e st : print t [] e st = (Ok tt, printed t [] st).
Proof. reflexivity. Qed.

Lemma print_error (t : string) (x : exn) e st :
  print t [Err x] e st = (Ok tt, printed t [Err x] st).
Proof. reflexivity. Qed.


Lemma main_run e st :
  main e st
  = bind (try_except
            (user <- login (driver_email e) (driver_password e) ;;
             print "   ✓ Logged in as {}" [Str (u_email user)] ;;
             print "   ✓ Organization: {}" [Str (u_organization_id user)] ;;
             ret true)
            (fun x => print "   ✗ Login failed: {}" [Err x] ;; ret false))
         (fun logged_in : bool => if logged_in then after_login else ret tt)
         e (at_login e st).
Proof. reflexivity. Qed.









(** *** No request exception leaves the driver *)

Lemma contained_ret {A} (a : A) : contained (ret a).
Proof. intros e st x H. discriminate. Qed.

Lemma contained_bind {A B} (c : M A) (k : A -> M B) :
  contained c -> (forall a, contained (k a)) -> contained (bind c k).
Proof.
  intros Hc Hk e st x. unfold bind. specialize (Hc e st).
  destruct (c e st) as [[a|y] st1]; cbn in *.
  - apply Hk.
  - intros H. injection H as <-. apply Hc. reflexivity.
Qed.

Lemma contained_try_except {A} (c : M A) (h : exn -> M A) :
  (forall x, contained (h x)) -> contained (try_except c h).
Proof.
  intros Hh e st x. unfold try_except.
  destruct (c e st) as [[a|y] st1]; cbn; [discriminate|].
  destruct (is_request_exception y) eqn:Hy.
  - apply Hh.
  - cbn. intros H. injection H as <-. exact Hy.
Qed.

Lemma eval_args_raises (l : list arg) (x : exn) :
  eval_args l = Raise x -> is_request_exception x = false.
Proof.
  induction l as [|a l IH]; cbn [eval_args]; [discriminate|].
  destruct (eval_arg a) as [[]|y] eqn:Ha; [exact IH|].
  intros H. injection H as <-.
  destruct a as [v|z|n v|n v]; cbn in Ha; try discriminate;
    destruct v; cbn in Ha; try discriminate;
    try (injection Ha as <-; reflexivity);
    destruct (_ <? _); try discriminate; injection Ha as <-; reflexivity.
Qed.

Lemma contained_print (t : string) (l : list arg) : contained (print t l).
Proof.
  intros e st x. unfold print, bind, lift, emit.
  destruct (eval_args l) as [[]|y] eqn:Hl; cbn; [discriminate|].
  intros H. injection H as <-. exact (eval_args_raises l y Hl).
Qed.

Lemma contained_environ_get k d : contained (environ_get k d).
Proof. intros e st x H. discriminate. Qed.

Lemma contained_set_self c : contained (set_self c).
Proof. intros e st x H. discriminate. Qed.

Create HintDb contained.
#[local] Hint Resolve contained_ret contained_print contained_environ_get
  contained_set_self : contained.

Ltac contain :=
  repeat first
    [ progress (intros; cbv beta)
    | solve [auto with contained]
    | apply contained_try_except
    | apply contained_bind ].

Lemma contained_check_buffer products : contained (step_check_buffer products).
Proof. unfold step_check_buffer. destruct products; contain. Qed.

#[local] Hint Resolve contained_check_buffer : contained.



(** *** A failing request makes the call raise a request exception *)












(** The whole run when the server accepts the login and cannot be reached
    afterwards: every later step is attempted (but the buffer check, for
    want of a product), fails and is reported, and the driver completes. *)
Example driver_run_through_outage :
  fst (main outage_after_login fresh) = Ok tt /\
  req_url <$> requests_of main outage_after_login fresh
  = ["http://localhost:8081/api/v1/auth/login";
     "http://localhost:8082/api/v1/products";
     "http://localhost:8082/api/v1/products";
     "http://localhost:8085/api/v1/analytics/snapshot";
     "http://localhost:8086/api/v1/notifications"] /\
  stdout (snd (main outage_after_login fresh))
  = [mkLine rule [];
     mkLine "GIIA Platform Python Client Example" [];
     mkLine rule [];
     mkLine (nl +:+ "1. Authenticating...") [];
     mkLine "   ✓ Logged in as {}" [Str (VStr "bo@example.com")];
     mkLine "   ✓ Organization: {}" [Str (VStr "org-2")];
     mkLine (nl +:+ "2. Listing products...") [];
     mkLine "   ✗ Failed: {}" [Err ConnectionError];
     mkLine (nl +:+ "3. Creating product...") [];
     mkLine "   ✗ Failed: {}" [Err ConnectionError];
     mkLine (nl +:+ "4. Checking buffer status...") [];
     mkLine (nl +:+ "5. Getting KPI snapshot...") [];
     mkLine "   ✗ Failed: {}" [Err ConnectionError];
     mkLine (nl +:+ "6. Getting notifications...") [];
     mkLine "   ✗ Failed: {}" [Err ConnectionError];
     mkLine (nl +:+ rule) [];
     mkLine "Example complete!" [];
     mkLine rule []].
Proof. vm_compute. auto. Qed.

(** The run in which only the buffer check fails: the steps before and
    after it go through. *)
Example driver_run_buffer_service_down :
  fst (main buffer_service_down fresh) = Ok tt /\
  stdout (snd (main buffer_service_down fresh))
  = [mkLine rule [];
     mkLine "GIIA Platform Python Client Example" [];
     mkLine rule [];
     mkLine (nl +:+ "1. Authenticating...") [];
     mkLine "   ✓ Logged in as {}" [Str (VStr "bo@example.com")];
     mkLine "   ✓ Organization: {}" [Str (VStr "org-2")];
     mkLine (nl +:+ "2. Listing products...") [];
     mkLine "   ✓ Found {} products" [Str (VInt 1)];
     mkLine "      - {}: {}" [Str (VStr "SKU-1"); Str (VStr "Bolt")];
     mkLine (nl +:+ "3. Creating product...") [];
     mkLine "   ✓ Created: {} - {}" [Str (VStr "SKU-1"); Str (VStr "Bolt")];
     mkLine (nl +:+ "4. Checking buffer status...") [];
     mkLine "   ✗ Failed: {}" [Err (HTTPError 503)];
     mkLine (nl +:+ "5. Getting KPI snapshot...") [];
     mkLine "   ✓ Service Level: {}%" [Percent 1 (VFloat 7 (-3))];
     mkLine "   ✓ Stockout Rate: {}%" [Percent 1 (VInt 0)];
     mkLine (nl +:+ "6. Getting notifications...") [];
     mkLine "   ✓ {} unread notifications" [Str (VInt 0)];
     mkLine (nl +:+ rule) [];
     mkLine "Example complete!" [];
     mkLine rule []].
Proof. vm_compute. auto. Qed.

(** An error that is not a request exception is not caught: a response of
    the catalog without [id] ends the driver. *)
Example driver_ends_on_key_error :
  fst (main (always 200 (Some (VDict full_login))) fresh) = Raise (KeyError "id").
Proof. vm_compute. reflexivity. Qed.

(** * Further properties of the client *)

(** ** Computations that keep the session *)

Lemma keeps_ret {A} (a : A) : keeps_session (ret a).
Proof. intros e st. reflexivity. Qed.

Lemma keeps_raise {A} (x : exn) : keeps_session (@raise A x).
Proof. intros e st. reflexivity. Qed.

Lemma keeps_lift {A} (r : result A) : keeps_session (lift r).
Proof. intros e st. reflexivity. Qed.

Lemma keeps_bind {A B} (c : M A) (k : A -> M B) :
  keeps_session c -> (forall a, keeps_session (k a)) -> keeps_session (bind c k).
Proof.
  intros Hc Hk e st. unfold bind. specialize (Hc e st).
  destruct (c e st) as [[a|x] st1]; cbn in *.
  - rewrite Hk. exact Hc.
  - exact Hc.
Qed.

Lemma keeps_get_self : keeps_session get_self.
Proof. intros e st. reflexivity. Qed.

Lemma keeps_property {A} (f : env -> GIIAClient -> A) : keeps_session (property f).
Proof. intros e st. reflexivity. Qed.

Lemma keeps_endpoint p : keeps_session (endpoint p).
Proof. intros e st. reflexivity. Qed.

Lemma keeps_fstr p v : keeps_session (fstr p v).
Proof. intros e st. reflexivity. Qed.

Lemma keeps_send r : keeps_session (send r).
Proof. intros e st. unfold send. destruct (server e (sent st) r); reflexivity. Qed.

Lemma keeps_raise_for_status r : keeps_session (raise_for_status r).
Proof. intros e st. unfold raise_for_status. destruct (_ && _); reflexivity. Qed.

Lemma keeps_json r : keeps_session (json r).
Proof. intros e st. unfold json. destruct (body r); reflexivity. Qed.

Lemma keeps_iterate v : keeps_session (iterate v).
Proof. intros e st. destruct v; reflexivity. Qed.

Lemma keeps_datetime_now : keeps_session datetime_now.
Proof. intros e st. reflexivity. Qed.

Lemma keeps_strftime_ymd t : keeps_session (strftime_ymd t).
Proof. intros e st. reflexivity. Qed.

Lemma keeps_mapM {A B} (f : A -> M B) (l : list A) :
  (forall a, keeps_session (f a)) -> keeps_session (mapM f l).
Proof.
  intros Hf. induction l as [|a l IH]; cbn [mapM].
  - apply keeps_ret.
  - apply keeps_bind; [apply Hf|]. intros b.
    apply keeps_bind; [exact IH|]. intros bs. apply keeps_ret.
Qed.

Create HintDb keeps.
#[local] Hint Resolve keeps_ret keeps_raise keeps_lift keeps_get_self keeps_property
  keeps_endpoint keeps_fstr keeps_send keeps_raise_for_status keeps_json
  keeps_iterate keeps_datetime_now keeps_strftime_ymd : keeps.

Ltac keep :=
  repeat first
    [ progress (intros; cbv beta)
    | solve [auto with keeps]
    | apply keeps_mapM
    | apply keeps_bind ].

Lemma keeps_make_Product p : keeps_session (make_Product p).
Proof. unfold make_Product. keep. Qed.

Lemma keeps_make_Buffer b pid : keeps_session (make_Buffer b pid).
Proof. unfold make_Buffer. keep. Qed.

#[local] Hint Resolve keeps_make_Product keeps_make_Buffer : keeps.

(** X3.  Every call but [login], [refresh_token] and [logout] leaves the
    access token, the organization id and the user as they are, whatever the
    server answers and whether the call returns or raises. *)
Theorem queries_keep_session (c : call) (e : env) (st : state) :
  c <> Logout ->
  self (snd (perform c e st)) = self st.
Proof.
  intros Hc.
  assert (H : keeps_session (perform c)).
  { destruct c; [contradiction|..]; cbn [perform];
      first [ unfold list_products | unfold get_product | unfold create_product
            | unfold get_buffer | unfold calculate_buffer
            | unfold create_purchase_order | unfold list_purchase_orders
            | unfold get_kpi_snapshot | unfold get_notifications ];
      keep. }
  apply H.
Qed.

Lemma queries_keep_session_witness :
  self (snd (perform (ListProducts 1 20 None) (always 500 None) logged_in))
  = self logged_in.
Proof.
  apply (queries_keep_session (ListProducts 1 20 None) (always 500 None) logged_in).
  discriminate.
Defined.

(** ** The token refresh *)

Lemma refresh_token_sent e st :
  sent (snd (refresh_token e st)) = sent st ++ [refresh_request (self st)].
Proof.
  unfold refresh_token, refresh_request. readers. apply sent_after_send. silence.
Qed.

(** X1.  [refresh_token] either returns the token it has stored, having
    replaced the access token and nothing else, or raises with the session
    as it was: unlike [login], it never leaves the session partly changed. *)
Theorem refresh_token_all_or_nothing (e : env) (st : state) :
  let st' := snd (refresh_token e st) in
  match fst (refresh_token e st) with
  | Ok tok =>
      access_token (self st') = tok /\
      org_id (self st') = org_id (self st) /\
      user (self st') = user (self st) /\
      base_url (self st') = base_url (self st)
  | Raise _ => self st' = self st
  end.
Proof.
  unfold refresh_token. run.
  destruct (server e (sent st) _) as [|resp]; [reflexivity|]. run.
  destruct (_ && _); [reflexivity|]. run.
  destruct (body resp) as [data|]; [|reflexivity]. run.
  unfold getitem. destruct data; try reflexivity.
  destruct (d !! "access_token"); cbn; auto.
Qed.

(** X2.  When the server lets the refresh through with a JSON object that
    holds [access_token], [refresh_token] returns that token and stores it;
    a call made next carries it in its [Authorization] header. *)
Theorem refresh_token_stores_new_token (e : env) (st : state) (resp : response)
    (d : gmap string value) (tok : value) :
  answered e st (snd (refresh_token e st)) resp ->
  ~ error_status (status_code resp) ->
  body resp = Some (VDict d) ->
  d !! "access_token" = Some tok ->
  fst (refresh_token e st) = Ok tok /\
  access_token (self (snd (refresh_token e st))) = tok /\
  (truthy tok = true ->
   _headers e (self (snd (refresh_token e st))) !! "Authorization"
   = Some (VStr ("Bearer " +:+ py_str e tok))).
Proof.
  intros H Hs Hb Ht. apply error_status_dec in Hs.
  assert (Hr : server e (sent st) (refresh_request (self st)) = Replied resp).
  { destruct H as (r & Hsent & Hr). rewrite refresh_token_sent in Hsent.
    apply app_one_inv in Hsent. subst r. exact Hr. }
  unfold refresh_request in Hr.
  unfold refresh_token. run. rewrite Hr. run. rewrite Hs, Hb.
  unfold getitem. run. rewrite Ht. run.
  split; [reflexivity|]. split; [reflexivity|].
  intros Htr.
  match goal with
  | |- _headers e ?c !! _ = _ =>
      pose proof (headers_lookup e c) as (_ & Ha & _); cbn in Ha;
      rewrite Htr in Ha; exact Ha
  end.
Qed.

Lemma refresh_token_stores_new_token_witness :
  let out := refresh_token (always 200 (Some (VDict token_only))) logged_in in
  fst out = Ok (VStr "tok-2") /\
  access_token (self (snd out)) = VStr "tok-2" /\
  (truthy (VStr "tok-2") = true ->
   _headers (always 200 (Some (VDict token_only))) (self (snd out)) !! "Authorization"
   = Some (VStr "Bearer tok-2")).
Proof.
  apply (refresh_token_stores_new_token (always 200 (Some (VDict token_only)))
           logged_in (mkResponse 200 (Some (VDict token_only))) token_only
           (VStr "tok-2")).
  - exists (refresh_request (self logged_in)). split; reflexivity.
  - unfold error_status. cbn. lia.
  - reflexivity.
  - reflexivity.
Defined.

(** X4.  [login] and [refresh_token] send exactly one request each, whatever
    the session holds and whatever the server answers: [login] posts the
    email and the password as JSON, and neither passes any header of the
    session, so that a token held before is not sent. *)
Theorem auth_requests (email password : string) (e : env) (st : state) :
  requests_of (login email password) e st
  = [mkRequest POST (base_url (self st) +:+ ":8081/api/v1/auth/login") None None
       (Some (VDict (<[ "email" := VStr email ]> (<[ "password" := VStr password ]> ∅))))]
  /\
  requests_of refresh_token e st
  = [mkRequest POST (base_url (self st) +:+ ":8081/api/v1/auth/refresh") None None None].
Proof.
  split; apply requests_of_one.
  - apply login_sent.
  - apply refresh_token_sent.
Qed.

(** ** Failures *)

(** Identifies the request [r] of hypothesis [H : requests_of _ e st = [r]]
    with the one the method sends. *)
Ltac identify H :=
  unfold requests_of in H; rewrite ?sent_discard in H; readers_in H;
  match type of H with
  | drop _ (sent (snd (bind (send ?r0) ?k ?e ?st))) = _ =>
      rewrite (sent_after_send r0 k e st) in H by silence;
      rewrite drop_app_length in H; injection H as <-
  end.

Ltac outcome_cases :=
  readers; run;
  match goal with
  | |- context [server ?e ?h ?r] => destruct (server e h r) as [|resp]
  end;
  [ reflexivity
  | split;
    [ intros Hs; apply error_status_test in Hs; run; rewrite Hs; reflexivity
    | intros Hs Hb; apply error_status_dec in Hs; run; rewrite Hs, Hb; reflexivity ] ].

(** X5.  Every call but [logout] fails in the same way: when its request is
    not delivered it raises the error of the transport; when the server
    answers with a 4xx or 5xx status it raises the HTTP error with that
    status, whatever the body; when the server lets it through with a body
    that is not JSON it raises the decoding error. *)
Theorem calls_fail_alike (c : call) (e : env) (st : state) (r : request) :
  c <> Logout ->
  requests_of (perform c) e st = [r] ->
  match server e (sent st) r with
  | SendFailed => fst (perform c e st) = Raise ConnectionError
  | Replied resp =>
      (error_status (status_code resp) ->
       fst (perform c e st) = Raise (HTTPError (status_code resp))) /\
      (~ error_status (status_code resp) -> body resp = None ->
       fst (perform c e st) = Raise JSONDecodeError)
  end.
Proof.
  intros Hc H. destruct c; [contradiction|..]; cbn [perform] in *.
  - unfold list_products in *. identify H. outcome_cases.
  - unfold get_product in *. identify H. outcome_cases.
  - unfold create_product in *. identify H. outcome_cases.
  - unfold get_buffer in *. identify H. outcome_cases.
  - unfold calculate_buffer in *. identify H. outcome_cases.
  - unfold requests_of in H. rewrite sent_discard in H.
    rewrite create_purchase_order_run in H. cbv zeta in H.
    unfold bind. rewrite create_purchase_order_run. cbv zeta.
    destruct (add_days _ expected_days) as [arrival|x].
    + rewrite sent_after_send in H by silence. cbn [sent] in H.
      rewrite drop_app_length in H. injection H as <-.
      unfold purchase_order_request. outcome_cases.
    + cbn [snd sent] in H. rewrite drop_all in H. discriminate.
  - unfold list_purchase_orders in *. identify H. outcome_cases.
  - unfold get_kpi_snapshot in *. identify H. outcome_cases.
  - unfold get_notifications in *. identify H. outcome_cases.
Qed.

Lemma calls_fail_alike_witness :
  fst (perform GetKpiSnapshot (always 503 None) logged_in) = Raise (HTTPError 503).
Proof.
  pose proof (calls_fail_alike GetKpiSnapshot (always 503 None) logged_in
                (mkRequest GET "http://localhost:8085/api/v1/analytics/snapshot"
                   (Some (_headers (always 503 None) (self logged_in))) None None)
                ltac:(discriminate) eq_refl) as H.
  apply (proj1 H). unfold error_status. cbn. lia.
Defined.

(** X6.  [login] and [refresh_token] fail like the other calls, and a call
    that fails so leaves the session as it was: an undelivered request
    raises the error of the transport, a 4xx or 5xx answer the HTTP error, a
    body that is not JSON the decoding error. *)
Theorem auth_calls_fail_alike (email password : string) (e : env) (st : state) :
  match server e (sent st) (login_request email password (self st)) with
  | SendFailed =>
      fst (login email password e st) = Raise ConnectionError /\
      self (snd (login email password e st)) = self st
  | Replied resp =>
      (error_status (status_code resp) ->
       fst (login email password e st) = Raise (HTTPError (status_code resp)) /\
       self (snd (login email password e st)) = self st) /\
      (~ error_status (status_code resp) -> body resp = None ->
       fst (login email password e st) = Raise JSONDecodeError /\
       self (snd (login email password e st)) = self st)
  end /\
  match server e (sent st) (refresh_request (self st)) with
  | SendFailed =>
      fst (refresh_token e st) = Raise ConnectionError /\
      self (snd (refresh_token e st)) = self st
  | Replied resp =>
      (error_status (status_code resp) ->
       fst (refresh_token e st) = Raise (HTTPError (status_code resp)) /\
       self (snd (refresh_token e st)) = self st) /\
      (~ error_status (status_code resp) -> body resp = None ->
       fst (refresh_token e st) = Raise JSONDecodeError /\
       self (snd (refresh_token e st)) = self st)
  end.
Proof.
  split.
  - unfold login, login_request. run.
    destruct (server e (sent st) _) as [|resp]; [split; reflexivity|].
    split.
    + intros Hs. apply error_status_test in Hs. run. rewrite Hs. split; reflexivity.
    + intros Hs Hb. apply error_status_dec in Hs. run. rewrite Hs, Hb.
      split; reflexivity.
  - unfold refresh_token, refresh_request. run.
    destruct (server e (sent st) _) as [|resp]; [split; reflexivity|].
    split.
    + intros Hs. apply error_status_test in Hs. run. rewrite Hs. split; reflexivity.
    + intros Hs Hb. apply error_status_dec in Hs. run. rewrite Hs, Hb.
      split; reflexivity.
Qed.

Lemma auth_calls_fail_alike_witness :
  (fst (login "bo@example.com" "pw" (always 401 None) logged_in) = Raise (HTTPError 401) /\
   self (snd (login "bo@example.com" "pw" (always 401 None) logged_in)) = self logged_in) /\
  (fst (refresh_token (always 200 None) logged_in) = Raise JSONDecodeError /\
   self (snd (refresh_token (always 200 None) logged_in)) = self logged_in).
Proof.
  destruct (auth_calls_fail_alike "bo@example.com" "pw" (always 401 None) logged_in)
    as [H1 _].
  destruct (auth_calls_fail_alike "bo@example.com" "pw" (always 200 None) logged_in)
    as [_ H2].
  split.
  - apply (proj1 H1). unfold error_status. cbn. lia.
  - apply (proj2 H2); [unfold error_status; cbn; lia | reflexivity].
Defined.

(** ** Query parameters *)

Lemma insert_key {V} (m : gmap string V) (i k : string) (x : V) :
  is_Some (<[ i := x ]> m !! k) -> k = i \/ is_Some (m !! k).
Proof.
  intros H. destruct (decide (i = k)) as [->|Hne]; [left; reflexivity|].
  right. rewrite lookup_insert_ne in H by exact Hne. exact H.
Qed.

Lemma empty_key {V} (k : string) : is_Some ((∅ : gmap string V) !! k) -> False.
Proof. rewrite lookup_empty. intros [v H]. discriminate. Qed.

(** Lists the keys a map built by successive insertions can hold. *)
Ltac keys H :=
  repeat (apply insert_key in H; destruct H as [->|H]; [tauto|]);
  try (apply empty_key in H; contradiction).

(** X7.  The status filter is sent exactly when it is a non-empty string:
    [list_products] always sends [page] and [page_size] and nothing besides
    them and the filter, and [list_purchase_orders] sends nothing but the
    filter; a filter that is [None] or empty is dropped without notice. *)
Theorem status_filter_sent_when_non_empty (status : option string) (e : env)
    (st : state) :
  let filter := match status with
                | Some s => if String.eqb s "" then None else Some (VStr s)
                | None => None
                end in
  (forall page page_size,
     exists r params,
       requests_of (list_products page page_size status) e st = [r] /\
       req_method r = GET /\
       req_params r = Some params /\
       params !! "page" = Some (VInt page) /\
       params !! "page_size" = Some (VInt page_size) /\
       params !! "status" = filter /\
       (forall k, is_Some (params !! k) ->
                  k = "page" \/ k = "page_size" \/ k = "status")) /\
  (exists r params,
     requests_of (list_purchase_orders status) e st = [r] /\
     req_method r = GET /\
     req_params r = Some params /\
     params !! "status" = filter /\
     (forall k, is_Some (params !! k) -> k = "status")).
Proof.
  intros filter. split.
  - intros page page_size. eexists _, _. split.
    + apply requests_of_one. unfold list_products. readers.
      apply sent_after_send. silence.
    + cbn [req_method req_params]. split; [reflexivity|]. split; [reflexivity|].
      subst filter. destruct status as [s|]; [destruct (String.eqb s "")|];
        cbn [negb]; repeat split; try (intros k Hk; keys Hk);
        repeat first [rewrite lookup_insert_eq | rewrite lookup_insert_ne by done
                     | rewrite lookup_empty]; reflexivity.
  - eexists _, _. split.
    + apply requests_of_one. unfold list_purchase_orders. readers.
      apply sent_after_send. silence.
    + cbn [req_method req_params]. split; [reflexivity|]. split; [reflexivity|].
      subst filter. destruct status as [s|]; [destruct (String.eqb s "")|];
        cbn [negb]; repeat split; try (intros k Hk; keys Hk);
        repeat first [rewrite lookup_insert_eq | rewrite lookup_insert_ne by done
                     | rewrite lookup_empty]; reflexivity.
Qed.

Lemma status_filter_sent_when_non_empty_witness :
  exists r params,
    requests_of (list_purchase_orders (Some "open")) offline fresh = [r] /\
    req_params r = Some params /\
    params !! "status" = Some (VStr "open") /\
    "status" = "status".
Proof.
  destruct (status_filter_sent_when_non_empty (Some "open") offline fresh)
    as (_ & r & params & Hr & _ & Hp & Hs & Hk).
  exists r, params. repeat split; try assumption.
Defined.

(** ** Products *)

Lemma make_Product_missing (p : gmap string value) (k : string) e st :
  k = "id" /\ p !! "id" = None \/
  k = "sku" /\ is_Some (p !! "id") /\ p !! "sku" = None \/
  k = "name" /\ is_Some (p !! "id") /\ is_Some (p !! "sku") /\ p !! "name" = None ->
  make_Product (VDict p) e st = (Raise (KeyError k), st).
Proof.
  unfold make_Product, getitem. run.
  intros [(-> & Hi)|[(-> & [i Hi] & Hs)|(-> & [i Hi] & [s Hs] & Hn)]];
    rewrite Hi; try reflexivity; rewrite Hs; try reflexivity; rewrite Hn; reflexivity.
Qed.

Lemma make_Product_not_object (v : value) e st :
  (forall p, v <> VDict p) -> make_Product v e st = (Raise TypeError, st).
Proof.
  intros Hv. destruct v; try reflexivity. exfalso. exact (Hv d eq_refl).
Qed.

(** X8.  A product the server sends without [id], [sku] or [name] is not
    defaulted: [get_product] and [create_product] raise the key error of the
    first of the three that is missing, in that order. *)
Theorem product_without_required_key (e : env) (st : state) (resp : response)
    (d : gmap string value) (k : string) :
  ~ error_status (status_code resp) ->
  body resp = Some (VDict d) ->
  k = "id" /\ d !! "id" = None \/
  k = "sku" /\ is_Some (d !! "id") /\ d !! "sku" = None \/
  k = "name" /\ is_Some (d !! "id") /\ is_Some (d !! "sku") /\ d !! "name" = None ->
  (forall product_id,
     answered e st (snd (get_product product_id e st)) resp ->
     fst (get_product product_id e st) = Raise (KeyError k)) /\
  (forall sku name category unit_of_measure,
     answered e st (snd (create_product sku name category unit_of_measure e st)) resp ->
     fst (create_product sku name category unit_of_measure e st) = Raise (KeyError k)).
Proof.
  intros Hs Hb Hk. apply error_status_dec in Hs. split.
  - intros product_id H. unfold get_product in *.
    replied H. run. rewrite Hs, Hb.
    rewrite (make_Product_missing d k) by exact Hk. reflexivity.
  - intros sku name category unit_of_measure H. unfold create_product in *.
    replied H. run. rewrite Hs, Hb.
    rewrite (make_Product_missing d k) by exact Hk. reflexivity.
Qed.

Lemma product_without_required_key_witness :
  fst (get_product (VStr "p-1") (always 200 (Some (VDict token_only))) fresh)
  = Raise (KeyError "id") /\
  fst (create_product "SKU-1" "Bolt" "" "units"
         (always 200 (Some (VDict token_only))) fresh)
  = Raise (KeyError "id").
Proof.
  assert (Hs : ~ error_status (status_code (mkResponse 200 (Some (VDict token_only))))).
  { unfold error_status. cbn. lia. }
  destruct (product_without_required_key (always 200 (Some (VDict token_only))) fresh
              (mkResponse 200 (Some (VDict token_only))) token_only "id" Hs eq_refl
              (or_introl (conj eq_refl eq_refl))) as (H1 & H2).
  split; [apply H1 | apply H2]; answer.
Defined.

(** X9.  What [create_product] returns or raises depends on the response
    only: the values submitted are never used to fill the record, so a
    category the server does not echo comes back as the empty string. *)
Theorem create_product_reads_response_only (e : env) (st : state) (resp : response)
    (sku name category unit_of_measure sku' name' category' unit_of_measure' : string) :
  answered e st (snd (create_product sku name category unit_of_measure e st)) resp ->
  answered e st (snd (create_product sku' name' category' unit_of_measure' e st)) resp ->
  fst (create_product sku name category unit_of_measure e st)
  = fst (create_product sku' name' category' unit_of_measure' e st).
Proof.
  intros H H'. unfold create_product in *.
  replied H. replied H'. run.
  destruct (_ && _); [reflexivity|]. run.
  destruct (body resp) as [p|]; [|reflexivity]. run.
  unfold make_Product. run.
  destruct (getitem p "id"); [|reflexivity]. run.
  destruct (getitem p "sku"); [|reflexivity]. run.
  destruct (getitem p "name"); [|reflexivity]. run.
  destruct (get p "category" _); [|reflexivity]. run.
  destruct (get p "unit_of_measure" _); [|reflexivity]. run.
  destruct (get p "status" _); reflexivity.
Qed.

Lemma create_product_reads_response_only_witness :
  fst (create_product "SKU-1" "Bolt" "Hardware" "boxes"
         (always 201 (Some (VDict bare_product))) fresh)
  = fst (create_product "SKU-9" "Nut" "" "units"
           (always 201 (Some (VDict bare_product))) fresh).
Proof.
  apply (create_product_reads_response_only (always 201 (Some (VDict bare_product)))
           fresh (mkResponse 201 (Some (VDict bare_product)))); answer.
Defined.

Lemma mapM_make_Product_stops (good : list value) (bad : value) (rest : list value)
    (x : exn) e st :
  Forall has_required_keys good ->
  make_Product bad e st = (Raise x, st) ->
  mapM make_Product (good ++ bad :: rest) e st = (Raise x, st).
Proof.
  intros Hg Hb. induction Hg as [|v good Hv _ IH]; cbn [app mapM].
  - unfold bind at 1. rewrite Hb. reflexivity.
  - destruct Hv as (p & -> & [i Hi] & [s Hs] & [n Hn]).
    unfold bind at 1. rewrite (make_Product_run p i s n) by assumption.
    unfold bind at 1. rewrite IH. reflexivity.
Qed.

(** X10.  [list_products] is all or nothing: when an item of the
    ["products"] array lacks [id], the call raises the key error and no
    product of the page is returned, however many well-formed items precede
    it. *)
Theorem list_products_fails_on_one_bad_item (e : env) (st : state) (resp : response)
    (d bad : gmap string value) (good rest : list value)
    (page page_size : Z) (status : option string) :
  answered e st (snd (list_products page page_size status e st)) resp ->
  ~ error_status (status_code resp) ->
  body resp = Some (VDict d) ->
  d !! "products" = Some (VList (good ++ VDict bad :: rest)) ->
  Forall has_required_keys good ->
  bad !! "id" = None ->
  fst (list_products page page_size status e st) = Raise (KeyError "id").
Proof.
  intros H Hs Hb Hp Hg Hbad. apply error_status_dec in Hs.
  unfold list_products in *. replied H. run. rewrite Hs, Hb.
  unfold get; run. rewrite Hp.
  cbv beta iota zeta delta [ret bind default from_option id iterate].
  match goal with
  | |- context [mapM make_Product _ e ?s] =>
      rewrite (mapM_make_Product_stops good (VDict bad) rest (KeyError "id") e s Hg)
  end; [reflexivity|].
  apply make_Product_missing. left. auto.
Qed.

Lemma list_products_fails_on_one_bad_item_witness :
  fst (list_products 1 20 None (always 200 (Some (VDict mixed_products))) fresh)
  = Raise (KeyError "id").
Proof.
  apply (list_products_fails_on_one_bad_item (always 200 (Some (VDict mixed_products)))
           fresh (mkResponse 200 (Some (VDict mixed_products))) mixed_products
           token_only [VDict bare_product] []).
  - answer.
  - unfold error_status. cbn. lia.
  - reflexivity.
  - reflexivity.
  - constructor; [|constructor]. exists bare_product.
    repeat split; eexists; reflexivity.
  - reflexivity.
Defined.

(** ** Buffers and raw results *)

(** X11.  Only an absent ["buffer"] is defaulted: when the key is present
    with a value that is not an object ([null], say), or when the body
    itself is not an object, [get_buffer] and [calculate_buffer] raise an
    attribute error. *)
Theorem buffer_not_an_object (e : env) (st : state) (resp : response)
    (data : value) (product_id : value) :
  ~ error_status (status_code resp) ->
  body resp = Some data ->
  (forall d, data <> VDict d) \/
  (exists d v, data = VDict d /\ d !! "buffer" = Some v /\ forall b, v <> VDict b) ->
  (answered e st (snd (get_buffer product_id e st)) resp ->
   fst (get_buffer product_id e st) = Raise AttributeError) /\
  (answered e st (snd (calculate_buffer product_id e st)) resp ->
   fst (calculate_buffer product_id e st) = Raise AttributeError).
Proof.
  intros Hs Hb Hd. apply error_status_dec in Hs.
  assert (Hk : forall st1,
             bind (lift (get data "buffer" (VDict ∅)))
                  (fun b => make_Buffer b product_id) e st1
             = (Raise AttributeError, st1)).
  { intros st1. destruct Hd as [Hn|(d & v & -> & Hv & Hn)].
    - destruct data; try reflexivity. exfalso. exact (Hn d eq_refl).
    - unfold bind at 1, lift, get. rewrite Hv.
      cbv beta iota delta [default from_option id].
      destruct v; try reflexivity. exfalso. exact (Hn d0 eq_refl). }
  split; intros H.
  - unfold get_buffer in *. replied H. run. rewrite Hs, Hb.
    match goal with
    | |- context [make_Buffer _ _ e ?s] => specialize (Hk s)
    end.
    cbv beta iota zeta delta [bind lift] in Hk. rewrite Hk. reflexivity.
  - unfold calculate_buffer in *. replied H. run. rewrite Hs, Hb.
    match goal with
    | |- context [make_Buffer _ _ e ?s] => specialize (Hk s)
    end.
    cbv beta iota zeta delta [bind lift] in Hk. rewrite Hk. reflexivity.
Qed.

Lemma buffer_not_an_object_witness :
  fst (get_buffer (VStr "p-1") (always 200 (Some (VDict null_buffer))) fresh)
  = Raise AttributeError /\
  fst (calculate_buffer (VStr "p-1") (always 200 (Some (VDict null_buffer))) fresh)
  = Raise AttributeError.
Proof.
  assert (Hs : ~ error_status (status_code (mkResponse 200 (Some (VDict null_buffer))))).
  { unfold error_status. cbn. lia. }
  destruct (buffer_not_an_object (always 200 (Some (VDict null_buffer))) fresh
              (mkResponse 200 (Some (VDict null_buffer))) (VDict null_buffer)
              (VStr "p-1") Hs eq_refl) as (H1 & H2).
  { right. exists null_buffer, VNone. repeat split. discriminate. }
  split; [apply H1 | apply H2]; answer.
Defined.

(** X12.  The calls with a raw result hand back what the server sent, of
    whatever shape: [get_kpi_snapshot] and [create_purchase_order] the whole
    body, [list_purchase_orders] and [get_notifications] the value found
    under ["data"] and ["notifications"], which need not be a list. *)
Theorem raw_results_are_verbatim (e : env) (st : state) (resp : response)
    (data : value) :
  ~ error_status (status_code resp) ->
  body resp = Some data ->
  (answered e st (snd (get_kpi_snapshot e st)) resp ->
   fst (get_kpi_snapshot e st) = Ok data) /\
  (forall po_number supplier_id line_items expected_days,
     answered e st
       (snd (create_purchase_order po_number supplier_id line_items expected_days e st))
       resp ->
     fst (create_purchase_order po_number supplier_id line_items expected_days e st)
     = Ok data) /\
  (forall d v status,
     data = VDict d -> d !! "data" = Some v ->
     answered e st (snd (list_purchase_orders status e st)) resp ->
     fst (list_purchase_orders status e st) = Ok v) /\
  (forall d v unread_only,
     data = VDict d -> d !! "notifications" = Some v ->
     answered e st (snd (get_notifications unread_only e st)) resp ->
     fst (get_notifications unread_only e st) = Ok v).
Proof.
  intros Hs Hb. apply error_status_dec in Hs. repeat split.
  - intros H. unfold get_kpi_snapshot in *. replied H. run. rewrite Hs, Hb.
    reflexivity.
  - intros po_number supplier_id line_items expected_days H.
    rewrite create_purchase_order_run in *. cbv zeta in *.
    destruct (add_days _ expected_days) as [arrival|x].
    + destruct H as (r & Hsent & Hr).
      rewrite sent_after_send in Hsent by silence. cbn [sent] in Hsent.
      apply app_one_inv in Hsent. subst r. unfold purchase_order_request in Hr.
      unfold purchase_order_request. run. rewrite Hr. run. rewrite Hs, Hb.
      reflexivity.
    + destruct H as (r & Hsent & _). cbn [snd sent] in Hsent.
      apply (f_equal (@length request)) in Hsent.
      rewrite length_app in Hsent. cbn in Hsent. lia.
  - intros d v status -> Hv H. unfold list_purchase_orders in *.
    replied H. run. rewrite Hs, Hb. unfold get; run. rewrite Hv. reflexivity.
  - intros d v unread_only -> Hv H. unfold get_notifications in *.
    replied H. run. rewrite Hs, Hb. unfold get; run. rewrite Hv. reflexivity.
Qed.

Lemma raw_results_are_verbatim_witness :
  fst (get_kpi_snapshot (always 200 (Some (VDict null_data))) fresh)
  = Ok (VDict null_data) /\
  fst (list_purchase_orders None (always 200 (Some (VDict null_data))) fresh)
  = Ok VNone.
Proof.
  assert (Hs : ~ error_status (status_code (mkResponse 200 (Some (VDict null_data))))).
  { unfold error_status. cbn. lia. }
  destruct (raw_results_are_verbatim (always 200 (Some (VDict null_data))) fresh
              (mkResponse 200 (Some (VDict null_data))) (VDict null_data) Hs eq_refl)
    as (H1 & _ & H3 & _).
  split.
  - apply H1. answer.
  - apply (H3 null_data VNone None eq_refl eq_refl). answer.
Defined.

(** ** Session life cycle *)

(** X13.  [_headers] never holds anything but the content type, the
    authorization and the organization id, and always holds the content
    type. *)
Theorem headers_hold_three_keys_at_most (e : env) (c : GIIAClient) (k : string) :
  _headers e c !! "Content-Type" = Some (VStr "application/json") /\
  (is_Some (_headers e c !! k) ->
   k = "Content-Type" \/ k = "Authorization" \/ k = "X-Organization-ID").
Proof.
  split; [apply headers_lookup|].
  unfold _headers. intros H.
  destruct (truthy (access_token c)), (truthy (org_id c)); cbv zeta in H;
    unfold singletonM, map_singleton in H; keys H.
Qed.

Lemma headers_hold_three_keys_at_most_witness :
  _headers offline (self logged_in) !! "Content-Type" = Some (VStr "application/json") /\
  ("Authorization" = "Content-Type" \/ "Authorization" = "Authorization"
   \/ "Authorization" = "X-Organization-ID").
Proof.
  destruct (headers_hold_three_keys_at_most offline (self logged_in) "Authorization")
    as (H1 & H2).
  split; [exact H1|]. apply H2. eexists. reflexivity.
Defined.

Lemma keeps_url_of_session {A} (c : M A) : keeps_session c -> keeps_url c.
Proof. intros H e st. rewrite H. reflexivity. Qed.

Lemma keeps_url_bind {A B} (c : M A) (k : A -> M B) :
  keeps_url c -> (forall a, keeps_url (k a)) -> keeps_url (bind c k).
Proof.
  intros Hc Hk e st. unfold bind. specialize (Hc e st).
  destruct (c e st) as [[a|x] st1]; cbn in *.
  - rewrite Hk. exact Hc.
  - exact Hc.
Qed.

Lemma keeps_url_set_access_token v : keeps_url (set_access_token v).
Proof. intros e st. reflexivity. Qed.

Lemma keeps_url_set_org_id v : keeps_url (set_org_id v).
Proof. intros e st. reflexivity. Qed.

Lemma keeps_url_set_user u : keeps_url (set_user u).
Proof. intros e st. reflexivity. Qed.

Ltac keep_url :=
  repeat first
    [ progress (intros; cbv beta)
    | solve [apply keeps_url_of_session; auto with keeps]
    | apply keeps_url_set_access_token
    | apply keeps_url_set_org_id
    | apply keeps_url_set_user
    | apply keeps_url_bind ].

Lemma keeps_url_login email password : keeps_url (login email password).
Proof. unfold login. keep_url. Qed.

Lemma keeps_url_refresh_token : keeps_url refresh_token.
Proof. unfold refresh_token. keep_url. Qed.

Lemma keeps_url_logout : keeps_url logout.
Proof. unfold logout. keep_url. Qed.

(** X14.  No method ever changes the base URL of the client, whether it
    returns or raises: not [login], [refresh_token] or [logout], which
    rewrite the session, nor any other call. *)
Theorem base_url_never_changes (e : env) (st : state) :
  (forall email password,
     base_url (self (snd (login email password e st))) = base_url (self st)) /\
  base_url (self (snd (refresh_token e st))) = base_url (self st) /\
  (forall c, base_url (self (snd (perform c e st))) = base_url (self st)).
Proof.
  split; [|split].
  - intros email password. apply keeps_url_login.
  - apply keeps_url_refresh_token.
  - intros c. destruct c; cbn [perform]; [apply keeps_url_logout|..];
      apply keeps_url_of_session;
      first [ unfold list_products | unfold get_product | unfold create_product
            | unfold get_buffer | unfold calculate_buffer
            | unfold create_purchase_order | unfold list_purchase_orders
            | unfold get_kpi_snapshot | unfold get_notifications ];
      keep.
Qed.

(** X15.  A [logout] that the server answers, after a [login], leaves the
    client as it was built: no token, no organization id, no user, the same
    base URL; a call made next carries the content type only. *)
Theorem login_then_logout_forgets_session (email password : string) (e e' : env)
    (st : state) (resp : response) :
  let st1 := snd (login email password e st) in
  let st2 := snd (logout e' st1) in
  answered e' st1 st2 resp ->
  self st2 = init (base_url (self st)) /\
  _headers e' (self st2) = {[ "Content-Type" := VStr "application/json" ]}.
Proof.
  intros st1 st2 (r & Hsent & Hr).
  assert (Hrun := logout_run e' st1). cbv zeta in Hrun.
  assert (Hq : self st2 = init (base_url (self st))).
  { subst st2. rewrite Hrun in Hsent |- *.
    destruct (server e' (sent st1) _) as [|resp'] eqn:E.
    - cbn [snd sent] in Hsent. apply app_one_inv in Hsent. subst r. congruence.
    - cbn [snd self]. unfold init. f_equal. apply keeps_url_login. }
  split; [exact Hq|]. rewrite Hq. reflexivity.
Qed.

Lemma login_then_logout_forgets_session_witness :
  let st1 := snd (login "bo@example.com" "pw"
                    (always 200 (Some (VDict full_login))) fresh) in
  let st2 := snd (logout (always 204 None) st1) in
  access_token (self st1) = VStr "tok-2" /\
  self st2 = init "http://localhost" /\
  _headers (always 204 None) (self st2) = {[ "Content-Type" := VStr "application/json" ]}.
Proof.
  intros st1 st2. split; [reflexivity|].
  apply (login_then_logout_forgets_session "bo@example.com" "pw"
           (always 200 (Some (VDict full_login))) (always 204 None) fresh
           (mkResponse 204 None)).
  eexists. split; reflexivity.
Defined.

(** ** Purchase orders *)

(** X16.  [create_purchase_order] sends its request exactly when the lead
    time is at most 999999999 days in magnitude and the arrival date, counted
    from the second reading of the clock, is a date of the years 1 to 9999.
    Otherwise it raises an overflow error after the two readings of the
    clock, with nothing sent and the session as it was. *)
Theorem purchase_order_sent_iff_date_in_range (po_number supplier_id : string)
    (line_items : value) (expected_days : Z) (e : env) (st : state) :
  let today' := clock e (S (clock_reads st)) in
  let out := create_purchase_order po_number supplier_id line_items expected_days e st in
  let in_range := Z.abs expected_days <= 999999999 /\
                  1 <= toordinal today' + expected_days <= _MAXORDINAL in
  (in_range -> exists r, requests_of
                           (create_purchase_order po_number supplier_id line_items
                              expected_days) e st = [r]) /\
  (~ in_range ->
   fst out = Raise OverflowError /\
   sent (snd out) = sent st /\
   self (snd out) = self st /\
   clock_reads (snd out) = S (S (clock_reads st))).
Proof.
  intros today' out in_range. subst out in_range. unfold requests_of.
  rewrite create_purchase_order_run. cbv zeta. fold today'.
  unfold add_days, _MAXORDINAL.
  destruct (999999999 <? Z.abs expected_days) eqn:Ha.
  - apply Z.ltb_lt in Ha. split; [lia|]. intros _. repeat split.
  - apply Z.ltb_ge in Ha.
    destruct ((0 <? toordinal today' + expected_days)
              && (toordinal today' + expected_days <=? 3652059)) eqn:Hr.
    + apply andb_true_iff in Hr as [H1 H2]. apply Z.ltb_lt in H1. apply Z.leb_le in H2.
      split; [|intros Hn; exfalso; apply Hn; lia].
      intros _. destruct (_ord2ymd _) as [[y m] d].
      eexists. rewrite sent_after_send by silence. cbn [sent].
      rewrite drop_app_length. reflexivity.
    + apply andb_false_iff in Hr. rewrite Z.ltb_ge, Z.leb_gt in Hr.
      split; [lia|]. intros _. repeat split.
Qed.

Lemma purchase_order_sent_iff_date_in_range_witness :
  (exists r, requests_of (create_purchase_order "PO-1" "sup-1" (VList []) 14)
               (always 201 None) fresh = [r]) /\
  (fst (create_purchase_order "PO-1" "sup-1" (VList []) (-800000) (always 201 None) fresh)
   = Raise OverflowError /\
   sent (snd (create_purchase_order "PO-1" "sup-1" (VList []) (-800000)
                (always 201 None) fresh)) = sent fresh).
Proof.
  split.
  - apply (purchase_order_sent_iff_date_in_range "PO-1" "sup-1" (VList []) 14
             (always 201 None) fresh).
    repeat split; vm_compute; discriminate.
  - destruct (purchase_order_sent_iff_date_in_range "PO-1" "sup-1" (VList []) (-800000)
                (always 201 None) fresh) as (_ & H).
    destruct H as (H1 & H2 & _).
    + intros (_ & Hlo & _). vm_compute in Hlo. apply Hlo. reflexivity.
    + split; [exact H1 | exact H2].
Defined.

(** ** The driver and other errors *)

Lemma try_except_passes {A B} (call : M A) (k : A -> M B) (h : exn -> M B) e st x :
  fst (call e st) = Raise x ->
  is_request_exception x = false ->
  try_except (bind call k) h e st = (Raise x, snd (call e st)).
Proof.
  intros Hc Hx. unfold try_except, bind.
  destruct (call e st) as [[a|y] st1]; cbn in *; [discriminate|].
  injection Hc as ->. rewrite Hx. reflexivity.
Qed.

(** X17.  The driver catches request exceptions only.  An error of another
    kind raised by the client call of a step (a key error on a response that
    lacks a required field, say) is not caught: it leaves the step, and when
    it is raised by [login] or by the listing of the products it ends
    [main], or the steps after the login, with that error. *)
Theorem driver_lets_other_errors_through (e : env) (st : state) (x : exn) :
  is_request_exception x = false ->
  (fst (login (driver_email e) (driver_password e) e (at_login e st)) = Raise x ->
   fst (main e st) = Raise x) /\
  (fst (list_products 1 5 None e (printed (nl +:+ "2. Listing products...") [] st))
   = Raise x ->
   fst (step_list_products e st) = Raise x /\ fst (after_login e st) = Raise x) /\
  (fst (create_product (demo_sku e (clock e (clock_reads st))) "Python Demo Product"
          "Demo" "units" e (ticked (printed (nl +:+ "3. Creating product...") [] st)))
   = Raise x ->
   fst (step_create_product e st) = Raise x) /\
  (forall first rest,
     fst (get_buffer (p_id first) e
            (printed (nl +:+ "4. Checking buffer status...") [] st)) = Raise x ->
     fst (step_check_buffer (first :: rest) e st) = Raise x) /\
  (fst (get_kpi_snapshot e (printed (nl +:+ "5. Getting KPI snapshot...") [] st))
   = Raise x ->
   fst (step_kpi_snapshot e st) = Raise x) /\
  (fst (get_notifications true e (printed (nl +:+ "6. Getting notifications...") [] st))
   = Raise x ->
   fst (step_notifications e st) = Raise x).
Proof.
  intros Hx.
  assert (H2 : fst (list_products 1 5 None e
                      (printed (nl +:+ "2. Listing products...") [] st)) = Raise x ->
               fst (step_list_products e st) = Raise x).
  { intros H. unfold step_list_products. unfold bind at 1. rewrite print_plain.
    rewrite (try_except_passes _ _ _ _ _ x H Hx). reflexivity. }
  repeat split.
  - intros H. rewrite main_run. unfold bind at 1.
    rewrite (try_except_passes _ _ _ _ _ x H Hx). reflexivity.
  - exact (H2 H).
  - unfold after_login. unfold bind at 1. specialize (H2 H).
    destruct (step_list_products e st) as [[a|y] st1]; cbn in *; congruence.
  - intros H. unfold step_create_product. unfold bind at 1. rewrite print_plain.
    unfold try_except, bind at 1, datetime_now at 1. unfold bind at 1.
    cbn [clock_reads self sent stdout printed].
    fold (demo_sku e (clock e (clock_reads st))). unfold bind at 1.
    unfold ticked, printed in H. cbn [clock_reads self sent stdout] in H.
    destruct (create_product _ _ _ _ e _) as [[a|y] st2]; cbn in *; [discriminate|].
    injection H as ->. rewrite Hx. reflexivity.
  - intros first rest H. unfold step_check_buffer. unfold bind at 1.
    rewrite print_plain. rewrite (try_except_passes _ _ _ _ _ x H Hx). reflexivity.
  - intros H. unfold step_kpi_snapshot. unfold bind at 1. rewrite print_plain.
    rewrite (try_except_passes _ _ _ _ _ x H Hx). reflexivity.
  - intros H. unfold step_notifications. unfold bind at 1. rewrite print_plain.
    rewrite (try_except_passes _ _ _ _ _ x H Hx). reflexivity.
Qed.

Lemma driver_lets_other_errors_through_witness :
  fst (main (always 200 (Some (VDict token_only))) fresh) = Raise (KeyError "user") /\
  fst (step_notifications (always 200 (Some (VList []))) fresh) = Raise AttributeError.
Proof.
  destruct (driver_lets_other_errors_through (always 200 (Some (VDict token_only)))
              fresh (KeyError "user") eq_refl) as (H1 & _).
  destruct (driver_lets_other_errors_through (always 200 (Some (VList [])))
              fresh AttributeError eq_refl) as (_ & _ & _ & _ & _ & H6).
  split; [exact (H1 eq_refl) | exact (H6 eq_refl)].
Defined.

(** ** No retry *)

Lemma sends_silent {A} (c : M A) : silent c -> sends_at_most 0 c.
Proof.
  intros H e st. exists []. rewrite H, app_nil_r. split; [reflexivity | cbn; lia].
Qed.

Lemma sends_send r : sends_at_most 1 (send r).
Proof.
  intros e st. exists [r]. split; [|cbn; lia].
  unfold send. destruct (server e (sent st) r); reflexivity.
Qed.

Lemma sends_bind {A B} (n m : nat) (c : M A) (k : A -> M B) :
  sends_at_most n c -> (forall a, sends_at_most m (k a)) ->
  sends_at_most (n + m) (bind c k).
Proof.
  intros Hc Hk e st. unfold bind. destruct (Hc e st) as (l & Hl & Hn).
  destruct (c e st) as [[a|x] st1]; cbn [snd] in *.
  - destruct (Hk a e st1) as (l' & Hl' & Hm). exists (l ++ l').
    rewrite Hl', Hl, app_assoc, length_app. split; [reflexivity | lia].
  - exists l. split; [exact Hl | lia].
Qed.

Lemma sends_try_except {A} (n m : nat) (c : M A) (h : exn -> M A) :
  sends_at_most n c -> (forall x, sends_at_most m (h x)) ->
  sends_at_most (n + m) (try_except c h).
Proof.
  intros Hc Hh e st. unfold try_except. destruct (Hc e st) as (l & Hl & Hn).
  destruct (c e st) as [[a|x] st1]; cbn [snd] in *.
  - exists l. split; [exact Hl | lia].
  - destruct (is_request_exception x).
    + destruct (Hh x e st1) as (l' & Hl' & Hm). exists (l ++ l').
      rewrite Hl', Hl, app_assoc, length_app. split; [reflexivity | lia].
    + exists l. split; [exact Hl | lia].
Qed.

Lemma sends_weaken {A} (n m : nat) (c : M A) :
  (n <= m)%nat -> sends_at_most n c -> sends_at_most m c.
Proof.
  intros Hnm Hc e st. destruct (Hc e st) as (l & Hl & Hn).
  exists l. split; [exact Hl | lia].
Qed.

Lemma silent_print t l : silent (print t l).
Proof.
  intros e st. unfold print, bind, lift, emit.
  destruct (eval_args l) as [[]|x]; reflexivity.
Qed.

Lemma silent_environ_get k d : silent (environ_get k d).
Proof. intros e st. reflexivity. Qed.

Lemma silent_datetime_now : silent datetime_now.
Proof. intros e st. reflexivity. Qed.

Lemma silent_endpoint p : silent (endpoint p).
Proof. intros e st. reflexivity. Qed.

Lemma silent_fstr p v : silent (fstr p v).
Proof. intros e st. reflexivity. Qed.

#[local] Hint Resolve silent_print silent_environ_get silent_datetime_now
  silent_endpoint silent_fstr : silent.

(** A method is a silent prefix, one request, and a silent rest. *)
Lemma sends_one_request {A} (c : M A) (f : env -> state -> list request) :
  (forall e st, sent (snd (c e st)) = sent st ++ f e st) ->
  (forall e st, (length (f e st) <= 1)%nat) ->
  sends_at_most 1 c.
Proof.
  intros Hc Hf e st. exists (f e st). split; [apply Hc | apply Hf].
Qed.

Lemma sends_login email password : sends_at_most 1 (login email password).
Proof.
  apply (sends_one_request _ (fun e st => [login_request email password (self st)])).
  - intros e st. apply login_sent.
  - intros e st. cbn. lia.
Qed.

Ltac one_request :=
  intros e st; eexists; split;
  [ readers; apply sent_after_send; silence | cbn; lia ].

Lemma sends_list_products page page_size status :
  sends_at_most 1 (list_products page page_size status).
Proof. unfold list_products. one_request. Qed.

Lemma sends_create_product sku name category unit_of_measure :
  sends_at_most 1 (create_product sku name category unit_of_measure).
Proof. unfold create_product. one_request. Qed.

Lemma sends_get_buffer product_id : sends_at_most 1 (get_buffer product_id).
Proof. unfold get_buffer. one_request. Qed.

Lemma sends_get_kpi_snapshot : sends_at_most 1 get_kpi_snapshot.
Proof. unfold get_kpi_snapshot. one_request. Qed.

Lemma sends_get_notifications unread_only :
  sends_at_most 1 (get_notifications unread_only).
Proof. unfold get_notifications. one_request. Qed.

Create HintDb sends.
#[local] Hint Resolve sends_login sends_list_products sends_create_product
  sends_get_buffer sends_get_kpi_snapshot sends_get_notifications : sends.

(** A step of the driver: silent prints around one client call. *)
Ltac quiet := apply sends_silent; silence; auto with silent.

Lemma sends_step_login : sends_at_most 1 step_login.
Proof.
  unfold step_login.
  apply (sends_bind 0 1); [quiet|]; intros _.
  apply (sends_bind 0 1); [quiet|]; intros email.
  apply (sends_bind 0 1); [quiet|]; intros password.
  apply (sends_try_except 1 0).
  - apply (sends_bind 1 0); [auto with sends|]. intros user. quiet.
  - intros x. quiet.
Qed.

Lemma sends_step_list_products : sends_at_most 1 step_list_products.
Proof.
  unfold step_list_products.
  apply (sends_bind 0 1); [quiet|]; intros _.
  apply (sends_try_except 1 0).
  - apply (sends_bind 1 0); [auto with sends|]. intros products. quiet.
  - intros x. quiet.
Qed.

Lemma sends_step_create_product : sends_at_most 1 step_create_product.
Proof.
  unfold step_create_product.
  apply (sends_bind 0 1); [quiet|]; intros _.
  apply (sends_try_except 1 0).
  - apply (sends_bind 0 1); [quiet|]; intros now.
    apply (sends_bind 0 1); [apply sends_silent; intros e st; reflexivity|].
    intros stamp.
    apply (sends_bind 1 0); [auto with sends|]. intros p. quiet.
  - intros x. quiet.
Qed.

Lemma sends_step_check_buffer products : sends_at_most 1 (step_check_buffer products).
Proof.
  unfold step_check_buffer.
  apply (sends_bind 0 1); [quiet|]; intros _.
  destruct products as [|first rest].
  - apply (sends_weaken 0 1); [lia | quiet].
  - apply (sends_try_except 1 0).
    + apply (sends_bind 1 0); [auto with sends|]. intros buffer. quiet.
    + intros x. quiet.
Qed.

Lemma sends_step_kpi_snapshot : sends_at_most 1 step_kpi_snapshot.
Proof.
  unfold step_kpi_snapshot.
  apply (sends_bind 0 1); [quiet|]; intros _.
  apply (sends_try_except 1 0).
  - apply (sends_bind 1 0); [auto with sends|]. intros kpis. quiet.
  - intros x. quiet.
Qed.

Lemma sends_step_notifications : sends_at_most 1 step_notifications.
Proof.
  unfold step_notifications.
  apply (sends_bind 0 1); [quiet|]; intros _.
  apply (sends_try_except 1 0).
  - apply (sends_bind 1 0); [auto with sends|]. intros notifications. quiet.
  - intros x. quiet.
Qed.

(** X18.  The driver never retries: whatever the server answers, a run of
    [main] sends at most six requests, one per step, and the steps after the
    login at most five. *)
Theorem driver_sends_at_most_six_requests (e : env) (st : state) :
  (length (requests_of main e st) <= 6)%nat /\
  (length (requests_of after_login e st) <= 5)%nat.
Proof.
  assert (Ha : sends_at_most 5 after_login).
  { unfold after_login.
    apply (sends_bind 1 4); [apply sends_step_list_products|]; intros products.
    apply (sends_bind 1 3); [apply sends_step_create_product|]; intros _.
    apply (sends_bind 1 2); [apply sends_step_check_buffer|]; intros _.
    apply (sends_bind 1 1); [apply sends_step_kpi_snapshot|]; intros _.
    apply (sends_bind 1 0); [apply sends_step_notifications|]; intros _.
    quiet. }
  assert (Hm : sends_at_most 6 main).
  { unfold main.
    apply (sends_bind 0 6); [quiet|]; intros _.
    apply (sends_bind 0 6); [quiet|]; intros _.
    apply (sends_bind 0 6); [quiet|]; intros _.
    apply (sends_bind 0 6); [quiet|]; intros url.
    apply (sends_bind 0 6); [quiet|]; intros _.
    apply (sends_bind 1 5); [apply sends_step_login|]; intros logged.
    destruct logged; [exact Ha|]. apply (sends_weaken 0 5); [lia | quiet]. }
  unfold requests_of. split.
  - destruct (Hm e st) as (l & -> & Hl). rewrite drop_app_length. exact Hl.
  - destruct (Ha e st) as (l & -> & Hl). rewrite drop_app_length. exact Hl.
Qed.
